(** * sipapa-backend: the BM25 search endpoint ([api/search.py])

    A shallow embedding of the request handler of [api/search.py] and of
    its ranking function [bm25_search], with the properties of the
    specification stated and proved against it.

    Modelling conventions.
    - Python [int] is [Z]; [len(...)] is a [nat] injected into [Z].
    - The value of a Python [float] is a real number ([R]): rounding is
      left out of the values. The exceptions of the float code are kept
      and propagated: [ZeroDivisionError] on a zero divisor, [ValueError]
      from [math.log] outside its domain, and [OverflowError] where an
      [int], or the quotient of two, is too large for a double, decided
      on the exact integers as CPython decides it. Where a property
      depends on the rounding of the additions, it is checked on IEEE
      doubles (module [Double]).
    - Python [str] is [string]; the text functions ([strip], [lower],
      [split], [int], [str]) follow CPython on ASCII text, characters
      above 127 are carried through unchanged. The limit that recent
      CPython versions put on the number of digits [int] reads is left
      out.
    - The module-level tables are [gmap]s where only lookups, size and
      sums are used ([INVERTED_INDEX], [DOC_META], [DOC_LENGTHS],
      [DOC_CONTENT]); a postings dict and the [scores] accumulator are
      association lists in insertion order, because [sorted] is stable
      and ties come out in that order. *)

From Stdlib Require Import Reals Lra Lia ZArith Ascii String Floats.
From Stdlib Require DecimalString DecimalPos.
From stdpp Require Import gmap strings list fin_maps sorting.

Open Scope R_scope.

(** ** Exceptions and the result monad *)

Inductive exn : Type :=
| ZeroDivisionError
| ValueError
| OverflowError (msg : string).

Inductive result (A : Type) : Type :=
| Ok (a : A)
| Raise (e : exn).

Arguments Ok {A} a.
Arguments Raise {A} e.

#[global] Instance result_ret : MRet result := fun A a => Ok a.

#[global] Instance result_bind : MBind result := fun A B k m =>
  match m with
  | Ok a => k a
  | Raise e => Raise e
  end.

(** A Python [for] loop whose body may raise: the accumulator is threaded
    through, the first exception ends the loop. *)
Fixpoint for_each {A S : Type} (body : S -> A -> result S) (xs : list A) (s : S)
  : result S :=
  match xs with
  | [] => Ok s
  | x :: xs' => s' ← body s x; for_each body xs' s'
  end.

(** ** Text primitives *)

Module Py.

(** [str.isspace] on the ASCII range: TAB, LF, VT, FF, CR, FS, GS, RS, US
    and the blank. *)
Definition isspace (c : ascii) : bool :=
  let n := nat_of_ascii c in
  ((9 <=? n)%nat && (n <=? 13)%nat) || ((28 <=? n)%nat && (n <=? 32)%nat).

(** The whitespace [int] skips around a literal (C's [Py_ISSPACE]): TAB,
    LF, VT, FF, CR and the blank. *)
Definition c_isspace (c : ascii) : bool :=
  let n := nat_of_ascii c in
  ((9 <=? n)%nat && (n <=? 13)%nat) || (n =? 32)%nat.

Definition isdigit (c : ascii) : bool :=
  let n := nat_of_ascii c in (48 <=? n)%nat && (n <=? 57)%nat.

Definition digit_value (c : ascii) : Z := (Z.of_nat (nat_of_ascii c) - 48)%Z.

(** Dropping leading and trailing characters that satisfy [sp]. *)
Fixpoint lstrip_by (sp : ascii -> bool) (s : string) : string :=
  match s with
  | String c s' => if sp c then lstrip_by sp s' else s
  | EmptyString => EmptyString
  end.

(** A character stays when something that stays follows it or when it
    does not satisfy [sp] itself. *)
Fixpoint rstrip_by (sp : ascii -> bool) (s : string) : string :=
  match s with
  | EmptyString => EmptyString
  | String c s' =>
      match rstrip_by sp s' with
      | EmptyString => if sp c then EmptyString else String c EmptyString
      | r => String c r
      end
  end.

Definition strip_by (sp : ascii -> bool) (s : string) : string :=
  rstrip_by sp (lstrip_by sp s).

(** [str.strip()] *)
Definition strip (s : string) : string := strip_by isspace s.

Definition lower_char (c : ascii) : ascii :=
  let n := nat_of_ascii c in
  if (65 <=? n)%nat && (n <=? 90)%nat then ascii_of_nat (n + 32) else c.

Fixpoint lower (s : string) : string :=
  match s with
  | EmptyString => EmptyString
  | String c s' => String (lower_char c) (lower s')
  end.

(** [str.split()] without arguments: maximal runs of non-whitespace.
    [cur] is the word being read, reversed. *)
Fixpoint split_aux (s : string) (cur : list ascii) : list string :=
  match s with
  | EmptyString =>
      match cur with
      | [] => []
      | _ => [string_of_list_ascii (rev cur)]
      end
  | String c s' =>
      if isspace c then
        match cur with
        | [] => split_aux s' []
        | _ => string_of_list_ascii (rev cur) :: split_aux s' []
        end
      else split_aux s' (c :: cur)
  end.

Definition split (s : string) : list string := split_aux s [].

(** The digits of an integer literal: decimal digits, a single underscore
    allowed between two digits. [seen] tells that the previous character
    was a digit. *)
Fixpoint int_digits (s : string) (acc : Z) (seen : bool) : option Z :=
  match s with
  | EmptyString => if seen then Some acc else None
  | String c s' =>
      if isdigit c then int_digits s' (10 * acc + digit_value c)%Z true
      else if Ascii.eqb c "_" && seen then int_digits s' acc false
      else None
  end.

(** [int(s)] for a string [s]: surrounding whitespace is dropped, one
    sign is accepted, the rest must be digits. [None] stands for
    [ValueError]. *)
Definition int (s : string) : option Z :=
  match strip_by c_isspace s with
  | String "+" r => int_digits r 0 false
  | String "-" r => Z.opp <$> int_digits r 0 false
  | t => int_digits t 0 false
  end.

(** [str(n)] for an integer [n]. *)
Definition str (n : Z) : string :=
  DecimalString.NilZero.string_of_int (Z.to_int n).

End Py.

(** ** Float operations that can raise *)

(** The least magnitude of an [int] that no longer rounds to a finite
    double: [float(2**1024 - 2**970)] raises, [float(2**1024 - 2**970 - 1)]
    is the largest double. *)
Definition float_limit : Z := (2 ^ 1024 - 2 ^ 970)%Z.

(** The [int] [n] converts to a float. *)
Definition fits (n : Z) : Prop := (Z.abs n < float_limit)%Z.

#[global] Instance fits_dec (n : Z) : Decision (fits n) :=
  Z_lt_dec (Z.abs n) float_limit.

(** The conversion of the [int] operand of a mixed operation
    ([int * float], [int + float], [int / float]). *)
Definition to_float (n : Z) : result R :=
  if decide (fits n) then Ok (IZR n)
  else Raise (OverflowError "int too large to convert to float").

(** [x / y] on floats. *)
Definition truediv (x y : R) : result R :=
  if Req_dec_T y 0 then Raise ZeroDivisionError else Ok (x / y).

(** [math.log(x)]. *)
Definition math_log (x : R) : result R :=
  if Rlt_dec 0 x then Ok (ln x) else Raise ValueError.

(** ** Global state *)

(** A value that is a Python [str] or [None] (a JSON string or null). A
    Rocq string stands for the [str] with that text. *)
Inductive text : Type :=
| Null
| Str (s : string).

Coercion Str : string >-> text.

(** One value of [DOC_META]: the dict built from a row of doc_meta.csv.
    The three text values are what [row.get] returned, which is [None]
    for a row too short to have the field. *)
Record meta : Type := Meta {
  m_url : text;
  m_title : text;
  m_image_url : text;
  m_doc_len : Z
}.

(** The module-level variables the handler reads. A postings dict
    [{doc_id: freq}] is kept as the list of its items in insertion order. *)
Record state : Type := State {
  INVERTED_INDEX : gmap string (list (string * Z));
  DOC_META : gmap string meta;
  DOC_LENGTHS : gmap string Z;
  DOC_CONTENT : gmap string string;
  TOTAL_DOCS : nat;
  INIT_ERROR : option string
}.

(** A dict given by its items has no key twice. *)
Definition dict_ok {V : Type} (items : list (string * V)) : Prop := NoDup (items.*1).

(** ** What the loaders store

    The two expressions of the loading code that decide which values the
    tables can hold. *)

(** [int(row.get("doc_len", 1) or 1)] for a row of doc_meta.csv, given
    the text of the field when there is one. [None] stands for the
    [ValueError] that makes the load fail. *)
Definition load_doc_len (field : option string) : option Z :=
  match field with
  | None => Some 1%Z
  | Some EmptyString => Some 1%Z
  | Some s => Py.int s
  end.

(** [(row.get("content_final") or "").strip()] for a row of
    corpus_clean_v2.csv. *)
Definition load_content (field : option string) : string :=
  Py.strip (default "" field).

(** ** Loading the data files (lines 28-97)

    The three [try] blocks that run when the module is imported. A data
    file is missing, or cannot be read (the text is [str(e)] of the
    exception), or gives its contents: the parsed JSON object, or the rows
    of the CSV file. An exception other than the [ValueError] of the
    doc_len conversion is taken to occur before any row is stored.

    [csv.DictReader] gives every row a key for every column of the header:
    the value is the text of the field, or [None] when the row is too
    short to have it. A key is missing from a row only when the header has
    no such column. *)

Inductive file (A : Type) : Type :=
| NotFound
| Unreadable (msg : string)
| Contents (a : A).

Arguments NotFound {A}.
Arguments Unreadable {A} msg.
Arguments Contents {A} a.

(** One row of doc_meta.csv as [csv.DictReader] yields it. For url,
    title and image_url the field is [None] when the header has no such
    column (then [row.get] returns its default), [Some Null] when the row
    is too short to have the field ([row.get] returns [None]) and the
    text otherwise. For doc_id and doc_len the two ways of having no text
    are not told apart, because [str(row.get("doc_id"))] and
    [row.get("doc_len", 1) or 1] treat them alike. *)
Record meta_row : Type := MetaRow {
  r_doc_id : option string;
  r_url : option text;
  r_title : option text;
  r_image_url : option text;
  r_doc_len : option string
}.

(** [str(e)] for the [FileNotFoundError] of [open(path)]. *)
Definition not_found_text (path : string) : string :=
  String.append "[Errno 2] No such file or directory: '" (String.append path "'").

(** [doc_id = str(row.get("doc_id"))] *)
Definition row_doc_id (row : meta_row) : string := default "None" (r_doc_id row).

(** [not doc_id or doc_id == "None"] *)
Definition row_skipped (row : meta_row) : bool :=
  String.eqb (row_doc_id row) "" || String.eqb (row_doc_id row) "None".

(** The dict stored in [DOC_META] for a row whose doc_len is [n]:
    [row.get("url", "")], [row.get("title", "Untitled")] and
    [row.get("image_url", "")], where the default is used only for a key
    the row does not have. *)
Definition row_meta (row : meta_row) (n : Z) : meta :=
  {| m_url := default (Str "") (r_url row);
     m_title := default (Str "Untitled") (r_title row);
     m_image_url := default (Str "") (r_image_url row);
     m_doc_len := n |}.

(** The set [all_ids] of the fallback (lines 64-67). *)
Definition all_ids (index : gmap string (list (string * Z))) : gset string :=
  map_fold (fun _ ps acc => list_to_set ps.*1 ∪ acc) ∅ index.

(** The loop over the rows of corpus_clean_v2.csv (lines 88-90); [idx]
    is the number [enumerate] gives the first of [rows]. *)
Fixpoint load_content_rows (idx : nat) (rows : list (option string))
    (content : gmap string string) : gmap string string :=
  match rows with
  | [] => content
  | row :: rest =>
      load_content_rows (S idx) rest
        (<[Py.str (Z.of_nat idx) := load_content row]> content)
  end.

Section Loader.

(** [str(e)] for the [ValueError] that [int(s)] raises. *)
Context (int_error : string -> string).

(** The loop over the rows of doc_meta.csv (lines 47-58). It returns the
    two tables and, when a doc_len is not an integer literal, the text of
    the exception that ended the loop. *)
Fixpoint load_meta_rows (rows : list meta_row)
    (doc_meta : gmap string meta) (doc_lengths : gmap string Z)
  : gmap string meta * gmap string Z * option string :=
  match rows with
  | [] => (doc_meta, doc_lengths, None)
  | row :: rest =>
      if row_skipped row then load_meta_rows rest doc_meta doc_lengths
      else
        match load_doc_len (r_doc_len row) with
        | None => (doc_meta, doc_lengths, Some (int_error (default "" (r_doc_len row))))
        | Some n =>
            load_meta_rows rest
              (<[row_doc_id row := row_meta row n]> doc_meta)
              (<[row_doc_id row := n]> doc_lengths)
        end
  end.

(** The module-level state after the three blocks have run. *)
Definition load (index_file : file (gmap string (list (string * Z))))
    (meta_file : file (list meta_row)) (corpus_file : file (list (option string)))
  : state :=
  let index := match index_file with Contents i => i | _ => ∅ end in
  let err1 :=
    match index_file with
    | Contents _ => None
    | NotFound =>
        Some (String.append "Failed to load inverted_index.json: "
                (not_found_text "data/inverted_index.json"))
    | Unreadable msg => Some (String.append "Failed to load inverted_index.json: " msg)
    end in
  let content :=
    match corpus_file with
    | Contents rows => load_content_rows 0 rows ∅
    | _ => ∅
    end in
  match meta_file with
  | NotFound => State index ∅ ∅ content 0 err1
  | Unreadable msg =>
      State index ∅ ∅ content 0 (Some (String.append "Failed to load doc_meta.csv: " msg))
  | Contents rows =>
      match load_meta_rows rows ∅ ∅ with
      | (doc_meta, doc_lengths, Some msg) =>
          State index doc_meta doc_lengths content 0
            (Some (String.append "Failed to load doc_meta.csv: " msg))
      | (doc_meta, doc_lengths, None) =>
          let total :=
            if (size doc_meta =? 0)%nat && negb (bool_decide (index = ∅))
            then size (all_ids index)
            else size doc_meta in
          State index doc_meta doc_lengths content total err1
      end
  end.

End Loader.

(** ** The [scores] accumulator: a [defaultdict(float)] *)

Definition scores_t : Type := list (string * R).

(** [scores[d]], reading [0.0] for a key never written. *)
Fixpoint scores_get (scores : scores_t) (d : string) : R :=
  match scores with
  | [] => 0
  | (d', s) :: rest => if String.eqb d' d then s else scores_get rest d
  end.

(** [scores[d] += x]: in place for a known key, appended for a new one. *)
Fixpoint scores_add (d : string) (x : R) (scores : scores_t) : scores_t :=
  match scores with
  | [] => [(d, 0 + x)]
  | (d', s) :: rest =>
      if String.eqb d' d then (d', s + x) :: rest
      else (d', s) :: scores_add d x rest
  end.

(** ** [sorted(scores.items(), key=lambda x: x[1], reverse=True)] *)

(** Python's sort is stable, also with [reverse=True]: items with equal
    scores keep the order they have in the dict. The model is the stable
    insertion sort by descending score: the new item goes after the items
    that score strictly more, before the first one that does not. *)
Fixpoint insert_desc (x : string * R) (l : scores_t) : scores_t :=
  match l with
  | [] => [x]
  | y :: l' => if Rlt_dec x.2 y.2 then y :: insert_desc x l' else x :: y :: l'
  end.

Definition sorted_desc (l : scores_t) : scores_t := foldr insert_desc [] l.

(** [l[:k]] for a Python int [k]: a negative [k] counts from the end. *)
Definition slice_to {A : Type} (k : Z) (l : list A) : list A :=
  if (0 <=? k)%Z then take (Z.to_nat k) l
  else take (length l - Z.to_nat (- k)) l.

(** ** BM25 *)

(** One entry of the result list. *)
Record hit : Type := Hit {
  doc_id : string;
  title : text;
  url : text;
  image_url : text;
  doc_len : option Z;
  score : R
}.

Definition k1 : R := 1.5.
Definition b : R := 0.75.

(** [idf = math.log((N - df + 0.5) / (df + 0.5) + 1)] *)
Definition idf (N df : Z) : result R :=
  r ← truediv (IZR (N - df) + 0.5) (IZR df + 0.5);
  math_log (r + 1).

Section Ranker.

Context (st : state).

(** [N = TOTAL_DOCS or 1] *)
Definition N_docs : Z :=
  if (TOTAL_DOCS st =? 0)%nat then 1%Z else Z.of_nat (TOTAL_DOCS st).

Definition sum_lengths : Z :=
  map_fold (fun _ v acc => (v + acc)%Z) 0%Z (DOC_LENGTHS st).

(** The average document length, [300.0] when no length is known. The
    quotient [sum(...) / len(...)] of two ints raises when it is too large
    for a float; [len(...)] is not 0 here. *)
Definition avg_dl : result R :=
  if decide (DOC_LENGTHS st = ∅) then Ok 300
  else if decide (Z.abs sum_lengths < float_limit * Z.of_nat (size (DOC_LENGTHS st)))%Z
       then Ok (IZR sum_lengths / INR (size (DOC_LENGTHS st)))
       else Raise (OverflowError "integer division result too large for a float").

(** [DOC_LENGTHS.get(doc_id, avg_dl)] *)
Definition doc_length (avg : R) (d : string) : R :=
  default avg (IZR <$> DOC_LENGTHS st !! d).

(** The body of the loop over [postings.items()] (lines 136-144). The
    key is a string and the frequency an int, so [str(raw_doc_id)] and
    [int(freq)] change nothing. The operands are evaluated from left to
    right: [tf * (k1 + 1)] converts [tf] to a float, [dl / avg_dl]
    converts a stored length (the fallback [avg_dl] is a float already)
    and then divides, and the quotient of line 142 comes last. *)
Definition score_posting (avg idf_t : R) (scores : scores_t) (p : string * Z)
  : result scores_t :=
  tf ← to_float p.2;
  dl ← match DOC_LENGTHS st !! p.1 with
       | Some n => to_float n
       | None => Ok avg
       end;
  r ← truediv dl avg;
  s ← truediv (tf * (k1 + 1)) (tf + k1 * (1 - b + b * r));
  mret (scores_add p.1 (idf_t * s) scores).

(** The body of the loop over [query_terms] (lines 124-144): a term
    without postings is skipped. *)
Definition score_term (avg : R) (scores : scores_t) (term : string)
  : result scores_t :=
  match INVERTED_INDEX st !! term with
  | None => mret scores
  | Some [] => mret scores
  | Some postings =>
      let df := Z.of_nat (length postings) in
      if (df =? 0)%Z then mret scores
      else
        idf_t ← idf N_docs df;
        for_each (score_posting avg idf_t) postings scores
  end.

(** The [scores] dict after both loops (lines 116-144). *)
Definition bm25_scores (query_terms : list string) : result scores_t :=
  avg ← avg_dl;
  for_each (score_term avg) query_terms [].

(** One iteration of the loop that builds [results] (lines 149-158). *)
Definition to_hit (x : string * R) : hit :=
  let m := DOC_META st !! x.1 in
  {| doc_id := x.1;
     title := default (Str "Untitled") (m_title <$> m);
     url := default (Str "") (m_url <$> m);
     image_url := default (Str "") (m_image_url <$> m);
     doc_len := m_doc_len <$> m;
     score := x.2 |}.

(** [bm25_search(query_terms, top_k)] (lines 103-160). *)
Definition bm25_search (query_terms : list string) (top_k : Z) : result (list hit) :=
  if decide (INVERTED_INDEX st = ∅) then mret []
  else
    scores ← bm25_scores query_terms;
    let ranked := sorted_desc scores in
    mret (to_hit <$> slice_to top_k ranked).

End Ranker.

(** ** The request handler *)

(** The value handed to [json.dumps]. *)
#[warnings="-register-all"]
Inductive json : Type :=
| JNull
| JStr (s : string)
| JInt (n : Z)
| JFloat (x : R)
| JArr (items : list json)
| JObj (fields : list (string * json)).

(** What [do_GET] sends: the status code, the Content-Type header and the
    body, kept as the JSON value that is serialised. *)
Record response : Type := Response {
  status : Z;
  content_type : string;
  body : json
}.

Definition send (code : Z) (payload : json) : response :=
  {| status := code;
     content_type := "application/json; charset=utf-8";
     body := payload |}.

(** The query string after [parse_qs]: for each of the three keys the
    handler reads, the first value when the key is present. *)
Record request : Type := Request {
  doc_id_param : option string;
  q_param : option string;
  top_k_param : option string
}.

(** [str(e)] for the exceptions above. *)
Definition exn_message (e : exn) : string :=
  match e with
  | ZeroDivisionError => "float division by zero"
  | ValueError => "math domain error"
  | OverflowError msg => msg
  end.

Definition json_of_doc_len (n : option Z) : json :=
  match n with
  | Some n => JInt n
  | None => JNull
  end.

Definition json_of_text (t : text) : json :=
  match t with
  | Str s => JStr s
  | Null => JNull
  end.

Definition json_of_hit (h : hit) : json :=
  JObj [("doc_id", JStr (doc_id h)); ("title", json_of_text (title h));
        ("url", json_of_text (url h)); ("image_url", json_of_text (image_url h));
        ("doc_len", json_of_doc_len (doc_len h)); ("score", JFloat (score h))].

(** The [try: str(int(doc_id_param)) except ValueError: str(doc_id_param)]
    of the detail branch. *)
Definition normalize_doc_id (doc_id_param : string) : string :=
  match Py.int doc_id_param with
  | Some n => Py.str n
  | None => doc_id_param
  end.

(** The [try: int(top_k_str) except ValueError: 20] of the search branch. *)
Definition parse_top_k (top_k_str : string) : Z :=
  match Py.int top_k_str with
  | Some n => n
  | None => 20%Z
  end.

Definition init_error_response (msg : string) : response :=
  send 500 (JObj [("error", JStr "INIT_ERROR"); ("message", JStr msg)]).

Definition not_found_response (doc_id : string) : response :=
  send 404 (JObj [("error", JStr "DOCUMENT_NOT_FOUND"); ("requested_id", JStr doc_id)]).

Definition missing_query_response : response :=
  send 400 (JObj [("error", JStr "Query parameter q is required"); ("results", JArr [])]).

Definition runtime_error_response (e : exn) : response :=
  send 500 (JObj [("error", JStr "RUNTIME_ERROR"); ("message", JStr (exn_message e))]).

Definition search_response (q : string) (results : list hit) : response :=
  send 200 (JObj [("query", JStr q);
                  ("count", JInt (Z.of_nat (length results)));
                  ("results", JArr (json_of_hit <$> results))]).

(** The [doc] dict of the detail branch. *)
Definition detail_record (doc_id : string) (title url image_url : text)
    (doc_len : option Z) (content : string) : json :=
  JObj [("doc_id", JStr doc_id); ("title", json_of_text title);
        ("url", json_of_text url); ("image_url", json_of_text image_url);
        ("doc_len", json_of_doc_len doc_len); ("content", JStr content)].

(** The detail branch (lines 193-221), from the normalised identifier
    on. A value of [DOC_META] is a dict with four keys, hence true. *)
Definition detail (st : state) (doc_id : string) : response :=
  let meta := DOC_META st !! doc_id in
  let content := default "" (DOC_CONTENT st !! doc_id) in
  if negb (bool_decide (is_Some meta)) && String.eqb content ""
  then not_found_response doc_id
  else
    send 200 (detail_record doc_id
                (default (Str "Untitled") (m_title <$> meta))
                (default (Str "") (m_url <$> meta))
                (default (Str "") (m_image_url <$> meta))
                (m_doc_len <$> meta)
                content).

(** The search branch (lines 229-255), from the stripped query text on;
    an exception of the ranker is caught by the handler and reported as
    RUNTIME_ERROR (lines 257-266). *)
Definition search (st : state) (q top_k_str : string) : response :=
  if String.eqb q "" then missing_query_response
  else
    let top_k := parse_top_k top_k_str in
    let query_terms := Py.split (Py.lower q) in
    match bm25_search st query_terms top_k with
    | Ok results => search_response q results
    | Raise e => runtime_error_response e
    end.

(** [handler.do_GET] (lines 167-266): the load error first, then the
    detail branch when a doc_id parameter is present, else the search
    branch. *)
Definition do_GET (st : state) (req : request) : response :=
  match INIT_ERROR st with
  | Some msg => init_error_response msg
  | None =>
      match doc_id_param req with
      | Some p => detail st (normalize_doc_id p)
      | None =>
          search st (Py.strip (default "" (q_param req)))
                    (default "20" (top_k_param req))
      end
  end.

(** * Specification-side definitions *)

(** The closed forms of the ranking formula, as the design document
    writes them; the theorems below relate them to the code. *)

Definition Rsum (xs : list R) : R := foldr Rplus 0 xs.

(** [idf = ln((N - df + 0.5) / (df + 0.5) + 1)] *)
Definition idf_formula (N df : Z) : R :=
  ln ((IZR N - IZR df + 0.5) / (IZR df + 0.5) + 1).

(** [idf * (tf * (k1+1)) / (tf + k1 * (1 - b + b * dl / avg_dl))] *)
Definition bm25_term (idf_t tf dl avg : R) : R :=
  idf_t * (tf * (1.5 + 1)) / (tf + 1.5 * (1 - 0.75 + 0.75 * dl / avg)).

(** The arithmetic mean of the known lengths, [300] when there is none. *)
Definition mean_length (st : state) : R :=
  if decide (DOC_LENGTHS st = ∅) then 300
  else IZR (sum_lengths st) / INR (size (DOC_LENGTHS st)).

(** The postings of a term, empty for a term the index does not have. *)
Definition postings_of (st : state) (t : string) : list (string * Z) :=
  default [] (INVERTED_INDEX st !! t).

(** The contributions a query term makes to document [d]: one for each
    entry of its postings that is about [d]. *)
Definition term_contributions (st : state) (d t : string) : list R :=
  let ps := postings_of st t in
  (fun p : string * Z =>
     bm25_term (idf_formula (N_docs st) (Z.of_nat (length ps)))
               (IZR p.2) (doc_length st (mean_length st) d) (mean_length st))
  <$> filter (fun p : string * Z => p.1 = d) ps.


(** The documents a query scores: those in the postings of some query
    term, each counted once. *)
Definition scoring_docs (st : state) (query_terms : list string) : list string :=
  remove_dups ((query_terms ≫= postings_of st).*1).

(** The value one posting adds, as the loop body computes it. *)
Definition posting_score (st : state) (avg idf_t : R) (p : string * Z) : R :=
  idf_t * ((IZR p.2 * (k1 + 1)) /
           (IZR p.2 + k1 * (1 - b + b * (doc_length st avg p.1 / avg)))).

(** The loop body returns exactly when no divisor is zero and the
    frequency and the stored length convert to floats. *)
Definition posting_defined (st : state) (avg : R) (p : string * Z) : Prop :=
  avg <> 0 /\ IZR p.2 + k1 * (1 - b + b * (doc_length st avg p.1 / avg)) <> 0 /\
  fits p.2 /\ (forall n, DOC_LENGTHS st !! p.1 = Some n -> fits n).

(** The quotient of the average length is within the range of floats. *)
Definition mean_fits (st : state) : Prop :=
  DOC_LENGTHS st = ∅ \/
  (Z.abs (sum_lengths st) < float_limit * Z.of_nat (size (DOC_LENGTHS st)))%Z.

(** The items the two loops add to the accumulator, in order: for each
    query term, one item for each entry of its postings. *)
Definition contributions (st : state) (avg : R) (query_terms : list string)
  : list (string * R) :=
  t ← query_terms;
  (fun p : string * Z =>
     (p.1, posting_score st avg
             (idf_formula (N_docs st) (Z.of_nat (length (postings_of st t)))) p))
  <$> postings_of st t.

(** Adding a list of items to the accumulator. *)
Definition accumulate (items : list (string * R)) (sc : scores_t) : scores_t :=
  foldl (fun sc it => scores_add it.1 it.2 sc) sc items.


(** No posting of a query term makes the loop body raise. *)
Definition query_defined (st : state) (avg : R) (query_terms : list string) : Prop :=
  Forall (posting_defined st avg) (query_terms ≫= postings_of st).



(** ** Invariants of the loaded data *)

(** Every stored document length is a count. *)
Definition lengths_nonneg (st : state) : Prop :=
  map_Forall (fun _ n => (0 <= n)%Z) (DOC_LENGTHS st).

(** Every stored term frequency is at least 1. *)
Definition freqs_pos (st : state) : Prop :=
  map_Forall (fun _ ps => Forall (fun p : string * Z => (1 <= p.2)%Z) ps)
             (INVERTED_INDEX st).

(** Every stored document length converts to a float. *)
Definition lengths_fit (st : state) : Prop :=
  map_Forall (fun _ n => fits n) (DOC_LENGTHS st).

(** Every stored term frequency converts to a float. *)
Definition freqs_fit (st : state) : Prop :=
  map_Forall (fun _ ps => Forall (fun p : string * Z => fits p.2) ps)
             (INVERTED_INDEX st).

(** No term occurs in more documents than the collection has. *)
Definition df_le_N (st : state) : Prop :=
  map_Forall (fun _ ps => (Z.of_nat (length ps) <= N_docs st)%Z)
             (INVERTED_INDEX st).

(** ** A small corpus

    Ten documents with lengths averaging 40; "kompas" occurs in two of
    them, three times in document 0, whose length is 50. *)

Definition example_meta : list (string * meta) :=
  [("0", Meta "https://example.org/bbm" "Harga BBM naik" "" 50);
   ("1", Meta "https://example.org/pagi" "Kompas pagi" "" 30);
   ("2", Meta "" "Berita 2" "" 40); ("3", Meta "" "Berita 3" "" 40);
   ("4", Meta "" "Berita 4" "" 40); ("5", Meta "" "Berita 5" "" 40);
   ("6", Meta "" "Berita 6" "" 40); ("7", Meta "" "Berita 7" "" 40);
   ("8", Meta "" "Berita 8" "" 40); ("9", Meta "" "Berita 9" "" 40)].

Definition example_state : state :=
  {| INVERTED_INDEX :=
       list_to_map [("kompas", [("0", 3%Z); ("1", 1%Z)]); ("bbm", [("1", 2%Z)])];
     DOC_META := list_to_map example_meta;
     DOC_LENGTHS :=
       list_to_map (map (fun x : string * meta => (x.1, m_doc_len x.2)) example_meta);
     DOC_CONTENT := list_to_map [("0", "isi berita"); ("1", "")];
     TOTAL_DOCS := 10;
     INIT_ERROR := None |}.

(** The scores of documents 0 and 1 for the query "kompas", and the
    entries of the result list they give. *)
Definition example_score_0 : R := ln 4.4 * (3 * 2.5) / (3 + 1.5 * (0.25 + 0.75 * 50 / 40)).
Definition example_score_1 : R := ln 4.4 * (1 * 2.5) / (1 + 1.5 * (0.25 + 0.75 * 30 / 40)).

Definition example_hit_0 : hit :=
  Hit "0" "Harga BBM naik" "https://example.org/bbm" "" (Some 50%Z) example_score_0.
Definition example_hit_1 : hit :=
  Hit "1" "Kompas pagi" "https://example.org/pagi" "" (Some 30%Z) example_score_1.

(** A corpus whose only document is empty: its length, and so the
    average length, is 0. *)
Definition zero_length_state : state :=
  {| INVERTED_INDEX := {["a" := [("0", 1%Z)]]};
     DOC_META := {["0" := Meta "" "Kosong" "" 0]};
     DOC_LENGTHS := {["0" := 0%Z]};
     DOC_CONTENT := ∅;
     TOTAL_DOCS := 1;
     INIT_ERROR := None |}.

(** A corpus in which doc_meta.csv gives one document a doc_len of
    [10^400], which [int] reads and no float can hold. *)
Definition huge_length_state : state :=
  {| INVERTED_INDEX := {["a" := [("0", 1%Z)]]};
     DOC_META := {["0" := Meta "" "Besar" "" (10 ^ 400)]};
     DOC_LENGTHS := {["0" := (10 ^ 400)%Z]};
     DOC_CONTENT := ∅;
     TOTAL_DOCS := 1;
     INIT_ERROR := None |}.

(** A corpus file with one row of empty text and no doc_meta.csv. *)
Definition empty_content_state : state :=
  {| INVERTED_INDEX := ∅;
     DOC_META := ∅;
     DOC_LENGTHS := ∅;
     DOC_CONTENT := {["0" := ""]};
     TOTAL_DOCS := 0;
     INIT_ERROR := None |}.

(** The state after inverted_index.json failed to load. *)
Definition failed_state : state :=
  {| INVERTED_INDEX := ∅;
     DOC_META := list_to_map example_meta;
     DOC_LENGTHS :=
       list_to_map (map (fun x : string * meta => (x.1, m_doc_len x.2)) example_meta);
     DOC_CONTENT := {["0" := "isi berita"]};
     TOTAL_DOCS := 10;
     INIT_ERROR := Some "Failed to load inverted_index.json: No such file" |}.

(** A corpus in which doc_meta.csv carries a negative doc_len. *)
Definition negative_length_state : state :=
  {| INVERTED_INDEX := {["a" := [("0", 1%Z)]]};
     DOC_META := list_to_map [("0", Meta "" "Minus" "" (-30)); ("1", Meta "" "Plus" "" 32)];
     DOC_LENGTHS := list_to_map [("0", (-30)%Z); ("1", 32%Z)];
     DOC_CONTENT := ∅;
     TOTAL_DOCS := 2;
     INIT_ERROR := None |}.

Definition negative_length_score : R := ln 2 * (1 * 2.5) / (1 + 1.5 * (0.25 + 0.75 * (-30) / 1)).

(** Every character of a string satisfies [P]. *)
Fixpoint string_forallb (P : ascii -> bool) (s : string) : bool :=
  match s with
  | EmptyString => true
  | String c s' => P c && string_forallb P s'
  end.


#[global] Instance R_eq_dec : EqDecision R := Req_dec_T.

(** ** The additions in double precision

    Where a property depends on how the float operations round, the
    loop body is also given on IEEE doubles ([float]), for operands that
    are floats already; the value of [math.log] is an input. *)

Module Double.

Definition k1 : float := 1.5%float.
Definition b : float := 0.75%float.

(** The argument of [math.log] in line 134. *)
Definition idf_argument (N df : float) : float :=
  ((N - df + 0.5) / (df + 0.5) + 1)%float.




End Double.

(** ** Example data files *)

(** [str(e)] of the [ValueError] for a text without quotes or escapes. *)
Definition plain_int_error (s : string) : string :=
  String.append "invalid literal for int() with base 10: '" (String.append s "'").

Definition example_index : gmap string (list (string * Z)) :=
  list_to_map [("kompas", [("0", 3%Z); ("1", 1%Z)]); ("bbm", [("1", 2%Z)])].

(** Three rows of doc_meta.csv: the second has no doc_id, the third
    repeats the id of the first. *)
Definition example_meta_rows : list meta_row :=
  [MetaRow (Some "0") (Some (Str "https://example.org/bbm")) (Some (Str "Harga BBM")) (Some (Str "")) (Some "50");
   MetaRow (Some "") (Some (Str "https://example.org/x")) (Some (Str "Tanpa id")) (Some (Str "")) (Some "7");
   MetaRow (Some "0") (Some (Str "https://example.org/bbm")) (Some (Str "Harga BBM naik")) (Some (Str "")) (Some "")].

(** A doc_meta.csv whose second row has a doc_len that is not a number. *)
Definition bad_meta_rows : list meta_row :=
  [MetaRow (Some "0") (Some (Str "")) (Some (Str "Satu")) (Some (Str "")) (Some "12");
   MetaRow (Some "1") (Some (Str "")) (Some (Str "Dua")) (Some (Str "")) (Some "dua belas");
   MetaRow (Some "2") (Some (Str "")) (Some (Str "Tiga")) (Some (Str "")) (Some "9")].

Definition example_corpus_rows : list (option string) :=
  [Some " isi berita "; Some "  "; Some "kompas pagi"].

(** ** Tactics for evaluating the model on concrete data *)

(** Table lookups on closed maps are computed; the real arithmetic that
    remains is left to [lra]. *)
Ltac eval_lookups :=
  repeat match goal with
    | |- context [@lookup ?K ?V ?M ?L ?k ?m] =>
        let v := eval vm_compute in (@lookup K V M L k m) in
        progress change (@lookup K V M L k m) with v
    end.

Ltac eval_eqb :=
  repeat match goal with
    | |- context [String.eqb ?a ?b] =>
        let v := eval vm_compute in (String.eqb a b) in
        progress change (String.eqb a b) with v
    end.

Ltac eval_digit :=
  repeat match goal with
    | |- context [Py.isdigit ?c] =>
        let v := eval vm_compute in (Py.isdigit c) in
        progress change (Py.isdigit c) with v
    | |- context [Py.digit_value ?c] =>
        let v := eval vm_compute in (Py.digit_value c) in
        progress change (Py.digit_value c) with v
    end.

(** * Examples of the text primitives *)

Example strip_ex : Py.strip "  Hello World	 " = "Hello World".
Proof. reflexivity. Qed.

Example split_ex : Py.split (Py.lower (Py.strip " Harga  BBM naik ")) = ["harga"; "bbm"; "naik"].
Proof. reflexivity. Qed.

Example int_ex :
  Py.int "007" = Some 7%Z /\ Py.int " -1_000	" = Some (-1000)%Z /\
  Py.int "1__0" = None /\ Py.int "3.5" = None /\ Py.int "" = None /\
  Py.int "+ 7" = None /\ Py.int "abc" = None /\ Py.int "_1" = None /\ Py.int "1_" = None.
Proof. repeat split; reflexivity. Qed.

Example int_whitespace_ex :
  Py.strip (String (ascii_of_nat 28) "5") = "5" /\
  Py.int (String (ascii_of_nat 28) "5") = None.
Proof. split; reflexivity. Qed.

Example load_doc_len_ex :
  load_doc_len (Some "50") = Some 50%Z /\ load_doc_len (Some "") = Some 1%Z /\
  load_doc_len None = Some 1%Z /\ load_doc_len (Some "0") = Some 0%Z /\
  load_doc_len (Some "-30") = Some (-30)%Z /\ load_doc_len (Some "4o") = None.
Proof. repeat split; reflexivity. Qed.

Example load_content_ex :
  load_content (Some " isi berita ") = "isi berita" /\ load_content (Some "  ") = "" /\
  load_content None = "".
Proof. repeat split; reflexivity. Qed.

Example str_ex : Py.str 7 = "7" /\ Py.str 0 = "0" /\ Py.str (-120) = "-120".
Proof. repeat split; reflexivity. Qed.

(** A row that stops after the url: title and image_url are [None], the
    doc_len counts as 1. A file without a title column: "Untitled". *)
Example row_meta_ex :
  row_meta (MetaRow (Some "7") (Some (Str "https://example.org/7")) (Some Null) (Some Null) None) 1
    = Meta "https://example.org/7" Null Null 1 /\
  row_meta (MetaRow (Some "7") (Some (Str "")) None (Some (Str "")) (Some "12")) 12
    = Meta "" "Untitled" "" 12.
Proof. split; reflexivity. Qed.

(** * Lemmas on the primitives *)

Lemma bind_Ok {A B : Type} (m : result A) (k : A -> result B) (v : B) :
  m ≫= k = Ok v <-> exists a, m = Ok a /\ k a = Ok v.
Proof.
  destruct m as [a|e]; simpl; split.
  - intros H. exists a. split; [reflexivity | exact H].
  - intros (a' & Ha & Hk). injection Ha as ->. exact Hk.
  - discriminate.
  - intros (a' & Ha & _). discriminate.
Qed.

Lemma truediv_Ok (x y : R) : y <> 0 -> truediv x y = Ok (x / y).
Proof. intros Hy. unfold truediv. destruct (Req_dec_T y 0); [contradiction | reflexivity]. Qed.

Lemma truediv_zero (x : R) : truediv x 0 = Raise ZeroDivisionError.
Proof. unfold truediv. destruct (Req_dec_T 0 0); [reflexivity | contradiction]. Qed.

Lemma truediv_inv (x y v : R) : truediv x y = Ok v -> y <> 0 /\ v = x / y.
Proof.
  unfold truediv. destruct (Req_dec_T y 0); [discriminate |].
  intros H. injection H as <-. split; [assumption | reflexivity].
Qed.

Lemma float_limit_pos : (0 < float_limit)%Z.
Proof. reflexivity. Qed.

Lemma to_float_Ok (n : Z) : fits n -> to_float n = Ok (IZR n).
Proof. intros H. unfold to_float. destruct (decide (fits n)); [reflexivity | contradiction]. Qed.

Lemma to_float_inv (n : Z) (v : R) : to_float n = Ok v -> fits n /\ v = IZR n.
Proof.
  unfold to_float. destruct (decide (fits n)); [| discriminate].
  intros H. injection H as <-. split; [assumption | reflexivity].
Qed.

Lemma to_float_Raise (n : Z) (e : exn) :
  to_float n = Raise e -> e = OverflowError "int too large to convert to float".
Proof.
  unfold to_float. destruct (decide (fits n)); [discriminate |].
  intros H. injection H as <-. reflexivity.
Qed.

Lemma truediv_Raise (x y : R) (e : exn) : truediv x y = Raise e -> e = ZeroDivisionError.
Proof.
  unfold truediv. destruct (Req_dec_T y 0); [| discriminate].
  intros H. injection H as <-. reflexivity.
Qed.

Lemma math_log_Ok (x : R) : 0 < x -> math_log x = Ok (ln x).
Proof. intros Hx. unfold math_log. destruct (Rlt_dec 0 x); [reflexivity | contradiction]. Qed.

Lemma math_log_inv (x v : R) : math_log x = Ok v -> 0 < x /\ v = ln x.
Proof.
  unfold math_log. destruct (Rlt_dec 0 x); [| discriminate].
  intros H. injection H as <-. split; [assumption | reflexivity].
Qed.

Lemma ln_nonneg (x : R) : 1 <= x -> 0 <= ln x.
Proof.
  intros Hx. rewrite <- ln_1. destruct Hx as [Hx | <-].
  - left. apply ln_increasing; lra.
  - right. reflexivity.
Qed.

Lemma ln_pos (x : R) : 1 < x -> 0 < ln x.
Proof. intros Hx. rewrite <- ln_1. apply ln_increasing; lra. Qed.

(** The argument of the logarithm, in one fraction. *)
Lemma idf_argument (N df : Z) :
  (0 <= df)%Z ->
  (IZR (N - df) + 0.5) / (IZR df + 0.5) + 1 = (IZR N + 1) / (IZR df + 0.5).
Proof.
  intros Hdf. apply IZR_le in Hdf. rewrite minus_IZR.
  replace 0.5 with (/ 2) by lra. field. lra.
Qed.

(** Unless the collection size is negative, [idf] raises nothing. *)
Lemma idf_Ok (N df : Z) :
  (0 <= N)%Z -> (0 <= df)%Z -> idf N df = Ok (idf_formula N df).
Proof.
  intros HN Hdf. unfold idf, idf_formula.
  pose proof (idf_argument N df Hdf) as Harg.
  apply IZR_le in HN, Hdf.
  rewrite truediv_Ok by lra. simpl.
  rewrite math_log_Ok.
  - rewrite minus_IZR. reflexivity.
  - rewrite Harg. apply Rdiv_lt_0_compat; lra.
Qed.

(** * Lemmas on the accumulator *)

Lemma scores_get_add_eq (d : string) (x : R) (sc : scores_t) :
  scores_get (scores_add d x sc) d = scores_get sc d + x.
Proof.
  induction sc as [| [d' s] rest IH]; simpl.
  - rewrite String.eqb_refl. reflexivity.
  - destruct (String.eqb_spec d' d) as [-> | Hne]; simpl.
    + rewrite String.eqb_refl. reflexivity.
    + destruct (String.eqb_spec d' d); [contradiction | exact IH].
Qed.

Lemma scores_get_add_ne (d d' : string) (x : R) (sc : scores_t) :
  d <> d' -> scores_get (scores_add d x sc) d' = scores_get sc d'.
Proof.
  intros Hne. induction sc as [| [e s] rest IH]; simpl.
  - destruct (String.eqb_spec d d'); [contradiction | reflexivity].
  - destruct (String.eqb_spec e d) as [-> | He]; simpl.
    + destruct (String.eqb_spec d d'); [contradiction | reflexivity].
    + rewrite IH. reflexivity.
Qed.

Lemma scores_add_keys_in (d : string) (x : R) (sc : scores_t) :
  d ∈ sc.*1 -> (scores_add d x sc).*1 = sc.*1.
Proof.
  induction sc as [| [e s] rest IH]; simpl; intros Hin.
  - inversion Hin.
  - destruct (String.eqb_spec e d) as [-> | He]; simpl; [reflexivity |].
    f_equal. apply IH. apply elem_of_cons in Hin as [Heq | Hin]; [congruence | exact Hin].
Qed.

Lemma scores_add_keys_notin (d : string) (x : R) (sc : scores_t) :
  d ∉ sc.*1 -> (scores_add d x sc).*1 = sc.*1 ++ [d].
Proof.
  induction sc as [| [e s] rest IH]; simpl; intros Hnin; [reflexivity |].
  apply not_elem_of_cons in Hnin as [Hne Hnin].
  destruct (String.eqb_spec e d) as [-> | He]; [contradiction |].
  simpl. f_equal. apply IH, Hnin.
Qed.

Lemma scores_add_elem_of (d d' : string) (x : R) (sc : scores_t) :
  d' ∈ (scores_add d x sc).*1 <-> d' = d \/ d' ∈ sc.*1.
Proof.
  destruct (decide (d ∈ sc.*1)) as [Hin | Hnin].
  - rewrite scores_add_keys_in by assumption. split; [auto |].
    intros [-> | H]; assumption.
  - rewrite scores_add_keys_notin by assumption.
    rewrite elem_of_app, list_elem_of_singleton. tauto.
Qed.

Lemma scores_add_NoDup (d : string) (x : R) (sc : scores_t) :
  NoDup sc.*1 -> NoDup (scores_add d x sc).*1.
Proof.
  intros Hnd. destruct (decide (d ∈ sc.*1)) as [Hin | Hnin].
  - rewrite scores_add_keys_in by assumption. exact Hnd.
  - rewrite scores_add_keys_notin by assumption.
    apply NoDup_app. split; [exact Hnd |]. split.
    + intros y Hy Hy'. apply list_elem_of_singleton in Hy' as ->. contradiction.
    + apply NoDup_singleton.
Qed.

(** With distinct keys, an item of the accumulator is what [scores_get]
    reads. *)
Lemma scores_get_elem_of (sc : scores_t) (d : string) (s : R) :
  NoDup sc.*1 -> (d, s) ∈ sc -> scores_get sc d = s.
Proof.
  induction sc as [| [e v] rest IH]; simpl; intros Hnd Hin.
  - inversion Hin.
  - apply NoDup_cons in Hnd as [Hfresh Hnd].
    apply elem_of_cons in Hin as [Heq | Hin].
    + injection Heq as <- <-. rewrite String.eqb_refl. reflexivity.
    + destruct (String.eqb_spec e d) as [-> | He]; [| apply IH; assumption].
      exfalso. apply Hfresh. apply list_elem_of_fmap. exists (d, s). split; [reflexivity | exact Hin].
Qed.

Lemma scores_get_notin (sc : scores_t) (d : string) :
  d ∉ sc.*1 -> scores_get sc d = 0.
Proof.
  induction sc as [| [e v] rest IH]; simpl; intros Hnin; [reflexivity |].
  apply not_elem_of_cons in Hnin as [Hne Hnin].
  destruct (String.eqb_spec e d) as [-> | He]; [contradiction | apply IH, Hnin].
Qed.

(** * Lemmas on the loops *)

Lemma for_each_app {A S : Type} (body : S -> A -> result S) (xs ys : list A) (s : S) :
  for_each body (xs ++ ys) s = for_each body xs s ≫= for_each body ys.
Proof.
  revert s. induction xs as [| x xs IH]; intros s; simpl; [reflexivity |].
  destruct (body s x) as [s' | e]; simpl; [apply IH | reflexivity].
Qed.

Section RankerFacts.

Context (st : state).

(** The length the loop body divides, once converted. *)
Lemma stored_length_Ok (avg : R) (d : string) :
  (forall n, DOC_LENGTHS st !! d = Some n -> fits n) ->
  match DOC_LENGTHS st !! d with
  | Some n => to_float n
  | None => Ok avg
  end = Ok (doc_length st avg d).
Proof.
  intros Hfit. unfold doc_length.
  destruct (DOC_LENGTHS st !! d) as [n |]; [| reflexivity].
  rewrite to_float_Ok by (apply Hfit; reflexivity). reflexivity.
Qed.

Lemma stored_length_inv (avg v : R) (d : string) :
  match DOC_LENGTHS st !! d with
  | Some n => to_float n
  | None => Ok avg
  end = Ok v ->
  (forall n, DOC_LENGTHS st !! d = Some n -> fits n) /\ v = doc_length st avg d.
Proof.
  unfold doc_length. destruct (DOC_LENGTHS st !! d) as [n |]; intros H.
  - apply to_float_inv in H as [Hfit ->]. split; [| reflexivity].
    intros n' Hn'. injection Hn' as <-. exact Hfit.
  - injection H as <-. split; [| reflexivity]. intros n' Hn'. discriminate Hn'.
Qed.

Lemma score_posting_Ok (avg idf_t : R) (sc : scores_t) (p : string * Z) :
  posting_defined st avg p ->
  score_posting st avg idf_t sc p = Ok (scores_add p.1 (posting_score st avg idf_t p) sc).
Proof.
  intros (Havg & Hden & Htf & Hdl). unfold score_posting.
  rewrite to_float_Ok by exact Htf. cbn [mbind result_bind].
  rewrite stored_length_Ok by exact Hdl. cbn [mbind result_bind].
  rewrite truediv_Ok by exact Havg. cbn [mbind result_bind].
  rewrite truediv_Ok by exact Hden. reflexivity.
Qed.

Lemma score_posting_inv (avg idf_t : R) (sc sc' : scores_t) (p : string * Z) :
  score_posting st avg idf_t sc p = Ok sc' ->
  posting_defined st avg p /\ sc' = scores_add p.1 (posting_score st avg idf_t p) sc.
Proof.
  unfold score_posting. intros H.
  apply bind_Ok in H as (tf & Htf & H). apply to_float_inv in Htf as [Htf ->].
  apply bind_Ok in H as (dl & Hdl & H). apply stored_length_inv in Hdl as [Hdl ->].
  apply bind_Ok in H as (r & Hr & H). apply truediv_inv in Hr as [Havg ->].
  apply bind_Ok in H as (s & Hs & H). apply truediv_inv in Hs as [Hden ->].
  injection H as <-. split; [repeat split; assumption | reflexivity].
Qed.

Lemma avg_dl_Ok : mean_fits st -> avg_dl st = Ok (mean_length st).
Proof.
  unfold avg_dl, mean_length, mean_fits.
  destruct (decide (DOC_LENGTHS st = ∅)) as [He | Hne]; [reflexivity |].
  intros [He | Hfit]; [contradiction |].
  destruct (decide _); [reflexivity | contradiction].
Qed.

Lemma avg_dl_inv (avg : R) : avg_dl st = Ok avg -> mean_fits st /\ avg = mean_length st.
Proof.
  unfold avg_dl, mean_length, mean_fits.
  destruct (decide (DOC_LENGTHS st = ∅)) as [He | Hne].
  - intros H. injection H as <-. split; [left; exact He | reflexivity].
  - destruct (decide _) as [Hfit | Hbig]; [| discriminate].
    intros H. injection H as <-. split; [right; exact Hfit | reflexivity].
Qed.

Lemma avg_dl_Raise (e : exn) :
  avg_dl st = Raise e <->
  e = OverflowError "integer division result too large for a float" /\ ~ mean_fits st.
Proof.
  unfold avg_dl, mean_fits. destruct (decide (DOC_LENGTHS st = ∅)) as [He | Hne].
  - split; [discriminate | intros [_ H]; destruct H; left; exact He].
  - destruct (decide _) as [Hfit | Hbig].
    + split; [discriminate | intros [_ H]; destruct H; right; exact Hfit].
    + split.
      * intros H. injection H as <-. split; [reflexivity |].
        intros [He | Hfit]; contradiction.
      * intros [-> _]. reflexivity.
Qed.

Lemma N_docs_pos : (1 <= N_docs st)%Z.
Proof. unfold N_docs. destruct (Nat.eqb_spec (TOTAL_DOCS st) 0); lia. Qed.

End RankerFacts.

Section LoopFacts.

Context (st : state).

Lemma accumulate_app (xs ys : list (string * R)) (sc : scores_t) :
  accumulate (xs ++ ys) sc = accumulate ys (accumulate xs sc).
Proof. unfold accumulate. apply foldl_app. Qed.

(** The loop over [query_terms] skips a term without postings and
    otherwise runs the inner loop with that term's idf. *)
Lemma score_term_unfold (avg : R) (sc : scores_t) (t : string) :
  score_term st avg sc t =
  for_each (score_posting st avg
              (idf_formula (N_docs st) (Z.of_nat (length (postings_of st t)))))
           (postings_of st t) sc.
Proof.
  unfold score_term, postings_of.
  destruct (INVERTED_INDEX st !! t) as [[| p ps] |]; simpl; try reflexivity.
  rewrite idf_Ok.
  - reflexivity.
  - pose proof (N_docs_pos st). lia.
  - lia.
Qed.

Lemma for_each_postings (avg idf_t : R) (ps : list (string * Z)) (sc sc' : scores_t) :
  for_each (score_posting st avg idf_t) ps sc = Ok sc' <->
  Forall (posting_defined st avg) ps /\
  sc' = accumulate ((fun p : string * Z => (p.1, posting_score st avg idf_t p)) <$> ps) sc.
Proof.
  revert sc. induction ps as [| p ps IH]; intros sc; simpl.
  - split.
    + intros H. injection H as <-. split; [constructor | reflexivity].
    + intros [_ ->]. reflexivity.
  - split.
    + intros H. apply bind_Ok in H as (s1 & H1 & H2).
      apply score_posting_inv in H1 as [Hdef ->].
      apply IH in H2 as [Hall ->]. split; [constructor; assumption | reflexivity].
    + intros [Hall ->]. apply Forall_cons in Hall as [Hdef Hall].
      rewrite score_posting_Ok by exact Hdef. simpl.
      apply IH. split; [exact Hall | reflexivity].
Qed.

Lemma for_each_terms (avg : R) (q : list string) (sc sc' : scores_t) :
  for_each (score_term st avg) q sc = Ok sc' <->
  query_defined st avg q /\ sc' = accumulate (contributions st avg q) sc.
Proof.
  unfold query_defined, contributions.
  revert sc. induction q as [| t q IH]; intros sc; simpl.
  - split.
    + intros H. injection H as <-. split; [constructor | reflexivity].
    + intros [_ ->]. reflexivity.
  - rewrite score_term_unfold, Forall_app, accumulate_app. split.
    + intros H. apply bind_Ok in H as (s1 & H1 & H2).
      apply for_each_postings in H1 as [Hps ->].
      apply IH in H2 as [Hq ->]. auto.
    + intros [[Hps Hq] ->].
      apply bind_Ok. eexists. split.
      * apply for_each_postings. split; [exact Hps | reflexivity].
      * apply IH. split; [exact Hq | reflexivity].
Qed.

(** [bm25_scores] returns exactly when the average length is within the
    range of floats and no posting of the query makes the loop body raise,
    and then it returns the accumulated contributions. *)
Lemma bm25_scores_iff (q : list string) (sc : scores_t) :
  bm25_scores st q = Ok sc <->
  mean_fits st /\ query_defined st (mean_length st) q /\
  sc = accumulate (contributions st (mean_length st) q) [].
Proof.
  unfold bm25_scores. split.
  - intros H. apply bind_Ok in H as (avg & Havg & H).
    apply avg_dl_inv in Havg as [Hfit ->].
    split; [exact Hfit |]. apply for_each_terms, H.
  - intros (Hfit & Hdef & ->). rewrite avg_dl_Ok by exact Hfit.
    cbn [mbind result_bind]. apply for_each_terms. split; [exact Hdef | reflexivity].
Qed.

Lemma bm25_scores_Ok (q : list string) :
  mean_fits st -> query_defined st (mean_length st) q ->
  bm25_scores st q = Ok (accumulate (contributions st (mean_length st) q) []).
Proof. intros Hfit H. apply bm25_scores_iff. split; [exact Hfit |]. split; [exact H | reflexivity]. Qed.

(** The loop body raises only for a zero divisor or for an int too large
    for a float. *)
Lemma score_posting_Raise (avg idf_t : R) (sc : scores_t) (p : string * Z) (e : exn) :
  score_posting st avg idf_t sc p = Raise e ->
  e = ZeroDivisionError \/ e = OverflowError "int too large to convert to float".
Proof.
  unfold score_posting.
  destruct (to_float p.2) as [tf | e1] eqn:Htf; cbn [mbind result_bind];
    [| intros H; injection H as <-; right; eapply to_float_Raise, Htf].
  destruct (match DOC_LENGTHS st !! p.1 with Some n => to_float n | None => Ok avg end)
    as [dl | e1] eqn:Hdl; cbn [mbind result_bind].
  - destruct (truediv dl avg) as [r | e1] eqn:Hr; cbn [mbind result_bind];
      [| intros H; injection H as <-; left; eapply truediv_Raise, Hr].
    destruct (truediv (tf * (k1 + 1)) _) as [s | e1] eqn:Hs; cbn [mbind result_bind].
    + intros H. discriminate H.
    + intros H. injection H as <-. left. eapply truediv_Raise, Hs.
  - intros H. injection H as <-. right.
    destruct (DOC_LENGTHS st !! p.1) as [n |]; [eapply to_float_Raise, Hdl | discriminate Hdl].
Qed.

Lemma for_each_postings_Raise (avg idf_t : R) (ps : list (string * Z)) (sc : scores_t) (e : exn) :
  for_each (score_posting st avg idf_t) ps sc = Raise e ->
  e = ZeroDivisionError \/ e = OverflowError "int too large to convert to float".
Proof.
  revert sc. induction ps as [| p ps IH]; intros sc; simpl; [discriminate |].
  destruct (score_posting st avg idf_t sc p) as [s1 | e1] eqn:H1; simpl.
  - apply IH.
  - intros H. injection H as <-. eapply score_posting_Raise, H1.
Qed.

Lemma for_each_terms_Raise (avg : R) (q : list string) (sc : scores_t) (e : exn) :
  for_each (score_term st avg) q sc = Raise e ->
  e = ZeroDivisionError \/ e = OverflowError "int too large to convert to float".
Proof.
  revert sc. induction q as [| t q IH]; intros sc; simpl; [discriminate |].
  destruct (score_term st avg sc t) as [s1 | e1] eqn:H1; simpl.
  - apply IH.
  - intros H. injection H as <-. rewrite score_term_unfold in H1.
    eapply for_each_postings_Raise, H1.
Qed.

(** The three exceptions the scoring can raise. *)
Lemma bm25_scores_Raise (q : list string) (e : exn) :
  bm25_scores st q = Raise e ->
  e = ZeroDivisionError \/ e = OverflowError "int too large to convert to float" \/
  e = OverflowError "integer division result too large for a float".
Proof.
  unfold bm25_scores. destruct (avg_dl st) as [avg | e1] eqn:Havg; cbn [mbind result_bind].
  - intros H. apply for_each_terms_Raise in H. tauto.
  - intros H. injection H as <-. apply avg_dl_Raise in Havg as [-> _]. auto.
Qed.

End LoopFacts.

(** * What the accumulator holds after the loops *)


Lemma accumulate_get (items : list (string * R)) (sc : scores_t) (d : string) :
  scores_get (accumulate items sc) d =
  scores_get sc d + Rsum (filter (fun it : string * R => it.1 = d) items).*2.
Proof.
  revert sc. induction items as [| [e x] items IH]; intros sc; simpl.
  - lra.
  - change (accumulate ((e, x) :: items) sc) with (accumulate items (scores_add e x sc)).
    rewrite IH. destruct (decide (e = d)) as [-> | Hne].
    + rewrite filter_cons_True by reflexivity. rewrite fmap_cons.
      change (Rsum (?y :: ?l)) with (y + Rsum l).
      rewrite scores_get_add_eq. cbn [snd]. lra.
    + rewrite filter_cons_False by exact Hne.
      rewrite scores_get_add_ne by exact Hne. reflexivity.
Qed.

Lemma accumulate_elem_of (items : list (string * R)) (sc : scores_t) (d : string) :
  d ∈ (accumulate items sc).*1 <-> d ∈ sc.*1 \/ d ∈ items.*1.
Proof.
  revert sc. induction items as [| [e x] items IH]; intros sc; simpl.
  - split; [auto | intros [H | H]; [exact H | inversion H]].
  - change (accumulate ((e, x) :: items) sc) with (accumulate items (scores_add e x sc)).
    rewrite IH, scores_add_elem_of, elem_of_cons. tauto.
Qed.

Lemma accumulate_NoDup (items : list (string * R)) (sc : scores_t) :
  NoDup sc.*1 -> NoDup (accumulate items sc).*1.
Proof.
  revert sc. induction items as [| [e x] items IH]; intros sc Hnd; [exact Hnd |].
  change (accumulate ((e, x) :: items) sc) with (accumulate items (scores_add e x sc)).
  apply IH, scores_add_NoDup, Hnd.
Qed.




Lemma contributions_keys (st : state) (avg : R) (q : list string) :
  (contributions st avg q).*1 = (q ≫= postings_of st).*1.
Proof.
  unfold contributions. induction q as [| t q IH]; [reflexivity |].
  rewrite !bind_cons, !fmap_app, IH. f_equal.
  rewrite <- list_fmap_compose. reflexivity.
Qed.




Lemma bm25_scores_NoDup (st : state) (q : list string) (sc : scores_t) :
  bm25_scores st q = Ok sc -> NoDup sc.*1.
Proof.
  intros H. apply bm25_scores_iff in H as (_ & _ & ->).
  apply accumulate_NoDup. constructor.
Qed.

Lemma bm25_scores_keys (st : state) (q : list string) (sc : scores_t) (d : string) :
  bm25_scores st q = Ok sc -> d ∈ sc.*1 <-> d ∈ (q ≫= postings_of st).*1.
Proof.
  intros H. apply bm25_scores_iff in H as (_ & _ & ->).
  rewrite accumulate_elem_of, contributions_keys. simpl.
  split; [intros [H | H]; [inversion H | exact H] | auto].
Qed.

(** * Sorting and slicing *)

Lemma insert_desc_perm (x : string * R) (l : scores_t) : insert_desc x l ≡ₚ x :: l.
Proof.
  induction l as [| y l IH]; simpl; [reflexivity |].
  destruct (Rlt_dec x.2 y.2); [| reflexivity].
  rewrite IH. apply Permutation_swap.
Qed.

Lemma sorted_desc_perm (l : scores_t) : sorted_desc l ≡ₚ l.
Proof.
  induction l as [| x l IH]; simpl; [reflexivity |].
  rewrite insert_desc_perm, IH. reflexivity.
Qed.



Lemma slice_to_nonneg {A : Type} (k : Z) (l : list A) :
  (0 <= k)%Z -> slice_to k l = take (Z.to_nat k) l.
Proof. intros Hk. unfold slice_to. destruct (Z.leb_spec 0 k); [reflexivity | lia]. Qed.

Lemma slice_to_neg {A : Type} (k : Z) (l : list A) :
  (k < 0)%Z -> slice_to k l = take (length l - Z.to_nat (- k)) l.
Proof. intros Hk. unfold slice_to. destruct (Z.leb_spec 0 k); [lia | reflexivity]. Qed.

Lemma slice_to_nil {A : Type} (k : Z) : slice_to k (@nil A) = [].
Proof. unfold slice_to. destruct (0 <=? k)%Z; apply take_nil. Qed.

Lemma slice_to_length {A : Type} (k : Z) (l : list A) :
  length (slice_to k l) =
  if (0 <=? k)%Z then Nat.min (Z.to_nat k) (length l)
  else (length l - Z.to_nat (- k))%nat.
Proof.
  unfold slice_to. destruct (0 <=? k)%Z; rewrite length_take; lia.
Qed.

Lemma slice_to_sublist {A : Type} (k : Z) (l : list A) :
  exists rest, l = slice_to k l ++ rest.
Proof.
  unfold slice_to. destruct (0 <=? k)%Z; eexists; symmetry; apply take_drop.
Qed.

(** * The result list *)

Lemma bm25_search_empty_index (st : state) (q : list string) (k : Z) :
  INVERTED_INDEX st = ∅ -> bm25_search st q k = Ok [].
Proof.
  intros He. unfold bm25_search. destruct (decide (INVERTED_INDEX st = ∅)); [reflexivity | contradiction].
Qed.

Lemma bm25_search_nonempty_index (st : state) (q : list string) (k : Z) :
  INVERTED_INDEX st <> ∅ ->
  bm25_search st q k =
  scores ← bm25_scores st q; mret (to_hit st <$> slice_to k (sorted_desc scores)).
Proof.
  intros Hne. unfold bm25_search. destruct (decide (INVERTED_INDEX st = ∅)); [contradiction | reflexivity].
Qed.

Lemma bm25_search_inv (st : state) (q : list string) (k : Z) (res : list hit) :
  bm25_search st q k = Ok res ->
  (INVERTED_INDEX st = ∅ /\ res = []) \/
  (INVERTED_INDEX st <> ∅ /\
   exists sc, bm25_scores st q = Ok sc /\ res = to_hit st <$> slice_to k (sorted_desc sc)).
Proof.
  unfold bm25_search. destruct (decide (INVERTED_INDEX st = ∅)) as [He | Hne]; intros H.
  - left. injection H as <-. auto.
  - right. split; [exact Hne |]. apply bind_Ok in H as (sc & Hsc & H).
    injection H as <-. eauto.
Qed.

(** Every returned hit is an item of the accumulator. *)
Lemma hit_in_scores (st : state) (k : Z) (sc : scores_t) (h : hit) :
  h ∈ to_hit st <$> slice_to k (sorted_desc sc) ->
  (doc_id h, score h) ∈ sc.
Proof.
  intros Hh. apply list_elem_of_fmap in Hh as (x & -> & Hx).
  destruct (slice_to_sublist k (sorted_desc sc)) as [rest Hrest].
  rewrite <- (sorted_desc_perm sc), Hrest. apply elem_of_app. left.
  destruct x as [d s]. exact Hx.
Qed.

(** * Scoring under the data invariants *)

Lemma sum_lengths_nonneg (st : state) : lengths_nonneg st -> (0 <= sum_lengths st)%Z.
Proof.
  unfold lengths_nonneg, sum_lengths.
  apply (map_fold_weak_ind
           (fun acc m => map_Forall (fun _ n => (0 <= n)%Z) m -> (0 <= acc)%Z)).
  - intros _. lia.
  - intros d n m acc Hfresh IH Hall.
    apply map_Forall_insert in Hall as [Hn Hm]; [| exact Hfresh].
    specialize (IH Hm). lia.
Qed.

Lemma mean_length_nonneg (st : state) : lengths_nonneg st -> 0 <= mean_length st.
Proof.
  intros Hall. unfold mean_length. destruct (decide _) as [He | Hne]; [lra |].
  apply Rmult_le_pos.
  - apply IZR_le, sum_lengths_nonneg, Hall.
  - left. apply Rinv_0_lt_compat, lt_0_INR.
    assert (size (DOC_LENGTHS st) <> 0%nat) by (rewrite map_size_empty_iff; exact Hne). lia.
Qed.

Lemma doc_length_nonneg (st : state) (avg : R) (d : string) :
  lengths_nonneg st -> 0 <= avg -> 0 <= doc_length st avg d.
Proof.
  intros Hall Havg. unfold doc_length.
  destruct (DOC_LENGTHS st !! d) as [n |] eqn:Hd; simpl; [| exact Havg].
  apply IZR_le. exact (Hall d n Hd).
Qed.

(** With a positive average and a length that is not negative, the
    denominator of a contribution is positive. *)
Lemma denominator_pos (tf dl avg : R) :
  0 <= tf -> 0 <= dl -> 0 < avg -> 0 < tf + k1 * (1 - b + b * (dl / avg)).
Proof.
  intros Htf Hdl Havg. unfold k1, b.
  assert (0 <= dl / avg) by (apply Rmult_le_pos; [exact Hdl | left; apply Rinv_0_lt_compat, Havg]).
  lra.
Qed.

(** The mean of lengths that convert to floats is within their range. *)
Lemma sum_lengths_bound (st : state) :
  lengths_fit st ->
  (Z.abs (sum_lengths st) <= (float_limit - 1) * Z.of_nat (size (DOC_LENGTHS st)))%Z.
Proof.
  unfold lengths_fit, sum_lengths.
  apply (map_fold_weak_ind
           (fun acc m => map_Forall (fun _ n => fits n) m ->
                         (Z.abs acc <= (float_limit - 1) * Z.of_nat (size m))%Z)).
  - intros _. rewrite map_size_empty. simpl. lia.
  - intros d n m acc Hfresh IH Hall.
    apply map_Forall_insert in Hall as [Hn Hm]; [| exact Hfresh].
    specialize (IH Hm). rewrite map_size_insert_None by exact Hfresh.
    unfold fits in Hn. lia.
Qed.

Lemma mean_fits_of_lengths_fit (st : state) : lengths_fit st -> mean_fits st.
Proof.
  intros Hfit. unfold mean_fits.
  destruct (decide (DOC_LENGTHS st = ∅)) as [He | Hne]; [left; exact He | right].
  pose proof (sum_lengths_bound st Hfit) as Hsum.
  assert (size (DOC_LENGTHS st) <> 0%nat) by (rewrite map_size_empty_iff; exact Hne).
  pose proof float_limit_pos. nia.
Qed.

Lemma query_defined_of_invariants (st : state) (q : list string) :
  lengths_nonneg st -> freqs_pos st -> mean_length st <> 0 ->
  lengths_fit st -> freqs_fit st ->
  query_defined st (mean_length st) q.
Proof.
  intros Hlen Hfreq Hmean Hlfit Hffit. unfold query_defined. apply Forall_forall. intros p Hp.
  apply list_elem_of_bind in Hp as (t & Hp & _). unfold postings_of in Hp.
  destruct (INVERTED_INDEX st !! t) as [ps |] eqn:Ht; simpl in Hp; [| inversion Hp].
  pose proof (Hfreq t ps Ht) as Hps. rewrite Forall_forall in Hps. specialize (Hps p Hp).
  pose proof (Hffit t ps Ht) as Hfs. rewrite Forall_forall in Hfs. specialize (Hfs p Hp).
  pose proof (mean_length_nonneg st Hlen) as Hnonneg.
  split; [exact Hmean |]. split; [| split; [exact Hfs |]].
  - apply Rgt_not_eq. apply denominator_pos.
    + apply IZR_le. simpl in Hps. lia.
    + apply doc_length_nonneg; assumption.
    + lra.
  - intros n Hn. exact (Hlfit _ _ Hn).
Qed.


(** * Evaluating the model on concrete data *)

Lemma example_index_nonempty : INVERTED_INDEX example_state <> ∅.
Proof. intros He. apply (f_equal size) in He. vm_compute in He. discriminate. Qed.

Lemma example_mean : mean_length example_state = 40.
Proof.
  unfold mean_length. destruct (decide _) as [He | Hne].
  - exfalso. apply (f_equal size) in He. vm_compute in He. discriminate.
  - replace (sum_lengths example_state) with 400%Z by (vm_compute; reflexivity).
    replace (size (DOC_LENGTHS example_state)) with 10%nat by (vm_compute; reflexivity).
    simpl. lra.
Qed.

Lemma example_postings :
  postings_of example_state "kompas" = [("0", 3%Z); ("1", 1%Z)] /\
  postings_of example_state "bbm" = [("1", 2%Z)] /\
  postings_of example_state "harga" = [].
Proof. repeat split; vm_compute; reflexivity. Qed.

Lemma example_lengths_nonneg : lengths_nonneg example_state.
Proof. unfold lengths_nonneg. apply (bool_decide_unpack (map_Forall _ _)). vm_compute. exact I. Qed.

Lemma example_freqs_pos : freqs_pos example_state.
Proof. unfold freqs_pos. apply (bool_decide_unpack (map_Forall _ _)). vm_compute. exact I. Qed.

Lemma example_df_le_N : df_le_N example_state.
Proof. unfold df_le_N. apply (bool_decide_unpack (map_Forall _ _)). vm_compute. exact I. Qed.

Lemma example_lengths_fit : lengths_fit example_state.
Proof. unfold lengths_fit. apply (bool_decide_unpack (map_Forall _ _)). vm_compute. exact I. Qed.

Lemma example_freqs_fit : freqs_fit example_state.
Proof. unfold freqs_fit. apply (bool_decide_unpack (map_Forall _ _)). vm_compute. exact I. Qed.

Lemma example_mean_fits : mean_fits example_state.
Proof. apply mean_fits_of_lengths_fit, example_lengths_fit. Qed.

Lemma example_defined (q : list string) :
  query_defined example_state (mean_length example_state) q.
Proof.
  apply query_defined_of_invariants.
  - exact example_lengths_nonneg.
  - exact example_freqs_pos.
  - rewrite example_mean. lra.
  - exact example_lengths_fit.
  - exact example_freqs_fit.
Qed.

Lemma example_scores (q : list string) :
  bm25_scores example_state q =
  Ok (accumulate (contributions example_state (mean_length example_state) q) []).
Proof. apply bm25_scores_Ok; [exact example_mean_fits | apply example_defined]. Qed.

(** * The closed form of the score *)

Lemma filter_none {A : Type} (P : A -> Prop) `{forall x, Decision (P x)} (l : list A) :
  (forall x, x ∈ l -> ~ P x) -> filter P l = [].
Proof.
  intros Hall. destruct (filter P l) as [| x rest] eqn:Hf; [reflexivity |].
  assert (Hx : x ∈ filter P l) by (rewrite Hf; apply list_elem_of_here).
  apply list_elem_of_filter in Hx as [HP Hx]. destruct (Hall x Hx HP).
Qed.


Lemma idf_formula_10_2 : idf_formula 10 2 = ln 4.4.
Proof. unfold idf_formula. f_equal. lra. Qed.



Lemma example_N : N_docs example_state = 10%Z.
Proof. reflexivity. Qed.

Lemma example_kompas_scores :
  bm25_scores example_state ["kompas"] = Ok [("0", example_score_0); ("1", example_score_1)].
Proof.
  rewrite example_scores. f_equal.
  rewrite example_mean.
  unfold contributions. rewrite bind_cons. change ([] ≫= _) with (@nil (string * R)).
  destruct example_postings as (-> & _ & _).
  cbn [fmap list_fmap app accumulate foldl scores_add fst snd length].
  eval_eqb. cbv iota.
  rewrite example_N. change (Z.of_nat 2) with 2%Z. rewrite idf_formula_10_2.
  unfold posting_score, doc_length. eval_lookups.
  cbn [fmap option_fmap option_map default fst snd Datatypes.id].
  unfold example_score_0, example_score_1, k1, b.
  repeat f_equal; lra.
Qed.

Lemma example_scores_order : example_score_1 < example_score_0.
Proof.
  unfold example_score_0, example_score_1.
  assert (Hln : 0 < ln 4.4) by (apply ln_pos; lra).
  replace (ln 4.4 * (1 * 2.5) / (1 + 1.5 * (0.25 + 0.75 * 30 / 40)))
    with (ln 4.4 * (80 / 71)) by lra.
  replace (ln 4.4 * (3 * 2.5) / (3 + 1.5 * (0.25 + 0.75 * 50 / 40)))
    with (ln 4.4 * (80 / 51)) by lra.
  apply Rmult_lt_compat_l; lra.
Qed.

Lemma example_kompas_ranked :
  sorted_desc [("0", example_score_0); ("1", example_score_1)] =
  [("0", example_score_0); ("1", example_score_1)].
Proof.
  pose proof example_scores_order.
  simpl. destruct (Rlt_dec example_score_0 example_score_1); [lra | reflexivity].
Qed.

Lemma example_kompas_search (k : Z) :
  bm25_search example_state ["kompas"] k =
  Ok (slice_to k [example_hit_0; example_hit_1]).
Proof.
  rewrite bm25_search_nonempty_index by exact example_index_nonempty.
  rewrite example_kompas_scores. unfold mbind, result_bind, mret, result_ret.
  rewrite example_kompas_ranked.
  unfold slice_to. destruct (0 <=? k)%Z; rewrite fmap_take; reflexivity.
Qed.

(** * Terms without postings, and the number of scored documents *)

Lemma score_term_skip (st : state) (avg : R) (sc : scores_t) (t : string) :
  postings_of st t = [] -> score_term st avg sc t = Ok sc.
Proof. intros Ht. rewrite score_term_unfold, Ht. reflexivity. Qed.

Lemma bm25_scores_filter (st : state) (q : list string) :
  bm25_scores st q = bm25_scores st (filter (fun t => postings_of st t <> []) q).
Proof.
  unfold bm25_scores. destruct (avg_dl st) as [avg | e]; [| reflexivity].
  unfold mbind, result_bind.
  generalize (@nil (string * R)). induction q as [| t q IH]; intros sc; [reflexivity |].
  destruct (decide (postings_of st t = [])) as [Ht | Ht].
  - rewrite filter_cons_False by (intros H; apply H, Ht).
    simpl. rewrite score_term_skip by exact Ht. apply IH.
  - rewrite filter_cons_True by exact Ht. simpl.
    destruct (score_term st avg sc t); simpl; [apply IH | reflexivity].
Qed.

Lemma bm25_search_filter (st : state) (q : list string) (k : Z) :
  bm25_search st q k = bm25_search st (filter (fun t => postings_of st t <> []) q) k.
Proof. unfold bm25_search. rewrite <- bm25_scores_filter. reflexivity. Qed.

Lemma bm25_scores_nil (st : state) : mean_fits st -> bm25_scores st [] = Ok [].
Proof. intros Hfit. unfold bm25_scores. rewrite avg_dl_Ok by exact Hfit. reflexivity. Qed.

Lemma bm25_scores_no_postings (st : state) (q : list string) :
  mean_fits st -> (forall t, t ∈ q -> postings_of st t = []) -> bm25_scores st q = Ok [].
Proof.
  intros Hfit Hq. rewrite bm25_scores_filter, filter_none; [apply bm25_scores_nil, Hfit |].
  intros t Ht Hne. apply Hne, Hq, Ht.
Qed.

(** When the average length is too large for a float, the scoring raises
    before it looks at the query. *)
Lemma bm25_scores_overflow (st : state) (q : list string) :
  ~ mean_fits st ->
  bm25_scores st q = Raise (OverflowError "integer division result too large for a float").
Proof.
  intros Hbig. unfold bm25_scores.
  destruct (avg_dl st) as [avg | e] eqn:Havg.
  - apply avg_dl_inv in Havg as [Hfit _]. contradiction.
  - apply avg_dl_Raise in Havg as [-> _]. reflexivity.
Qed.

Lemma bm25_search_of_scores (st : state) (q : list string) (k : Z) (sc : scores_t) :
  bm25_scores st q = Ok sc ->
  bm25_search st q k =
  Ok (if decide (INVERTED_INDEX st = ∅) then []
      else to_hit st <$> slice_to k (sorted_desc sc)).
Proof.
  intros Hsc. unfold bm25_search. destruct (decide _); [reflexivity |].
  rewrite Hsc. reflexivity.
Qed.

(** The keys of the accumulator are the scoring documents. *)
Lemma bm25_scores_docs (st : state) (q : list string) (sc : scores_t) :
  bm25_scores st q = Ok sc -> sc.*1 ≡ₚ scoring_docs st q.
Proof.
  intros Hsc. apply NoDup_Permutation.
  - eapply bm25_scores_NoDup, Hsc.
  - apply NoDup_remove_dups.
  - intros d. unfold scoring_docs. rewrite elem_of_remove_dups.
    apply bm25_scores_keys, Hsc.
Qed.

Lemma bm25_scores_length (st : state) (q : list string) (sc : scores_t) :
  bm25_scores st q = Ok sc -> length sc = length (scoring_docs st q).
Proof.
  intros Hsc. rewrite <- (bm25_scores_docs st q sc Hsc), length_fmap. reflexivity.
Qed.

Lemma sorted_desc_length (l : scores_t) : length (sorted_desc l) = length l.
Proof. apply Permutation_length, sorted_desc_perm. Qed.

Lemma term_contributions_no_postings (st : state) (d t : string) :
  postings_of st t = [] -> term_contributions st d t = [].
Proof. intros Ht. unfold term_contributions. rewrite Ht. reflexivity. Qed.

(** What [bm25_search] raises, the scoring loops raise, on an index that
    is not empty. *)
Lemma bm25_search_Raise (st : state) (q : list string) (k : Z) (e : exn) :
  bm25_search st q k = Raise e <->
  INVERTED_INDEX st <> ∅ /\ bm25_scores st q = Raise e.
Proof.
  unfold bm25_search. destruct (decide (INVERTED_INDEX st = ∅)) as [He | Hne].
  - split; [discriminate | intros [H _]; contradiction].
  - destruct (bm25_scores st q) as [sc | e'] eqn:Hsc; cbn [mbind result_bind].
    + split; [discriminate | intros [_ H]; discriminate H].
    + split; [intros H; injection H as <-; auto |].
      intros [_ H]. injection H as <-. reflexivity.
Qed.

(** * Empty results *)

(** C2, amended: [bm25_search] returns the empty list, raising nothing,
    when the index is empty. On an index that is not empty it computes
    the average length first; when that is within the range of floats it
    returns the empty list for a query without terms and for a query none
    of whose terms has postings, whatever [top_k] is. Whenever the scoring
    loops complete it returns the empty list for [top_k = 0]. Query terms
    without postings are skipped and contribute nothing. *)
Theorem bm25_search_empty_result (st : state) (query_terms : list string) (top_k : Z) :
  (INVERTED_INDEX st = ∅ -> bm25_search st query_terms top_k = Ok []) /\
  (mean_fits st ->
   query_terms = [] \/ (forall t, t ∈ query_terms -> postings_of st t = []) ->
   bm25_search st query_terms top_k = Ok []) /\
  (forall scores,
      bm25_scores st query_terms = Ok scores -> top_k = 0%Z ->
      bm25_search st query_terms top_k = Ok []) /\
  bm25_search st query_terms top_k =
    bm25_search st (filter (fun t => postings_of st t <> []) query_terms) top_k /\
  (forall t d, postings_of st t = [] -> term_contributions st d t = []).
Proof.
  split; [| split; [| split; [| split]]].
  - intros He. apply bm25_search_empty_index, He.
  - intros Hfit Hq.
    assert (Hsc : bm25_scores st query_terms = Ok []).
    { destruct Hq as [-> | Hq].
      - apply bm25_scores_nil, Hfit.
      - apply bm25_scores_no_postings; assumption. }
    rewrite (bm25_search_of_scores st _ top_k [] Hsc).
    destruct (decide _); [reflexivity |]. change (sorted_desc []) with (@nil (string * R)).
    rewrite slice_to_nil. reflexivity.
  - intros scores Hsc ->. rewrite (bm25_search_of_scores st _ 0 scores Hsc).
    destruct (decide _); reflexivity.
  - apply bm25_search_filter.
  - intros t d. apply term_contributions_no_postings.
Qed.

Lemma bm25_search_empty_result_witness :
  bm25_search example_state ["harga"] 20 = Ok [] /\
  bm25_search example_state [] (-3) = Ok [] /\
  bm25_search example_state ["kompas"] 0 = Ok [].
Proof.
  destruct (bm25_search_empty_result example_state ["harga"] 20) as (_ & H1 & _).
  destruct (bm25_search_empty_result example_state [] (-3)) as (_ & H2 & _).
  destruct (bm25_search_empty_result example_state ["kompas"] 0) as (_ & _ & H3 & _).
  split; [| split].
  - apply (H1 example_mean_fits). right. intros t Ht.
    apply list_elem_of_singleton in Ht as ->. vm_compute. reflexivity.
  - apply (H2 example_mean_fits). left. reflexivity.
  - apply (H3 _ example_kompas_scores). reflexivity.
Defined.

Lemma zero_length_mean : mean_length zero_length_state = 0.
Proof.
  unfold mean_length. destruct (decide _) as [He | Hne].
  - exfalso. apply (f_equal size) in He. vm_compute in He. discriminate.
  - replace (sum_lengths zero_length_state) with 0%Z by (vm_compute; reflexivity).
    replace (size (DOC_LENGTHS zero_length_state)) with 1%nat by (vm_compute; reflexivity).
    simpl. lra.
Qed.

Lemma zero_length_index : INVERTED_INDEX zero_length_state <> ∅.
Proof. intros He. apply (f_equal size) in He. vm_compute in He. discriminate. Qed.

Lemma zero_length_search (k : Z) :
  bm25_search zero_length_state ["a"] k = Raise ZeroDivisionError.
Proof.
  apply bm25_search_Raise. split; [exact zero_length_index |].
  unfold bm25_scores. rewrite avg_dl_Ok by (right; vm_compute; reflexivity).
  rewrite zero_length_mean. cbn [mbind result_bind for_each].
  rewrite score_term_unfold.
  replace (postings_of zero_length_state "a") with [("0", 1%Z)] by (vm_compute; reflexivity).
  cbn [for_each]. unfold score_posting. cbn [fst snd].
  rewrite to_float_Ok by (vm_compute; reflexivity). cbn [mbind result_bind].
  eval_lookups. cbv iota beta.
  rewrite to_float_Ok by (vm_compute; reflexivity). cbn [mbind result_bind].
  rewrite truediv_zero. reflexivity.
Qed.

Lemma huge_length_index : INVERTED_INDEX huge_length_state <> ∅.
Proof. intros He. apply (f_equal size) in He. vm_compute in He. discriminate. Qed.

Lemma huge_length_mean : ~ mean_fits huge_length_state.
Proof.
  intros [He | Hlt].
  - apply (f_equal size) in He. vm_compute in He. discriminate.
  - vm_compute in Hlt. discriminate.
Qed.

Lemma huge_length_search (q : list string) (k : Z) :
  bm25_search huge_length_state q k =
  Raise (OverflowError "integer division result too large for a float").
Proof.
  apply bm25_search_Raise. split; [exact huge_length_index |].
  apply bm25_scores_overflow, huge_length_mean.
Qed.

(** C2 as stated fails in three ways. With [top_k = -1] the slice keeps
    all but the last ranked document. With [top_k = 0] a corpus of average
    length 0 makes the scoring loop divide by zero before any slicing. And
    a doc_len of [10^400], which the loader accepts, makes the average
    overflow, so that also a query without terms, or with a term that has
    no postings, raises. *)
Lemma bm25_search_nonpositive_top_k_counterexample :
  bm25_search example_state ["kompas"] (-1) = Ok [example_hit_0] /\
  parse_top_k "-1" = (-1)%Z /\
  load_doc_len (Some "0") = Some 0%Z /\
  bm25_search zero_length_state ["a"] 0 = Raise ZeroDivisionError /\
  load_doc_len (Some (Py.str (10 ^ 400))) = Some (10 ^ 400)%Z /\
  bm25_search huge_length_state [] 20 =
    Raise (OverflowError "integer division result too large for a float") /\
  postings_of huge_length_state "b" = [] /\
  bm25_search huge_length_state ["b"] 20 =
    Raise (OverflowError "integer division result too large for a float") /\
  ~ (forall st query_terms top_k,
        (top_k <= 0)%Z -> bm25_search st query_terms top_k = Ok []) /\
  ~ (forall st top_k, bm25_search st [] top_k = Ok []).
Proof.
  split; [| split; [reflexivity |]; split; [reflexivity |]; split;
            [| split; [| split; [| split; [| split; [| split]]]]]].
  - rewrite example_kompas_search. reflexivity.
  - apply zero_length_search.
  - vm_compute. reflexivity.
  - apply huge_length_search.
  - vm_compute. reflexivity.
  - apply huge_length_search.
  - intros H. specialize (H example_state ["kompas"] (-1)%Z ltac:(lia)).
    rewrite example_kompas_search in H. discriminate H.
  - intros H. specialize (H huge_length_state 20%Z).
    rewrite huge_length_search in H. discriminate H.
Qed.

(** * Ranking and truncation *)





Lemma scoring_docs_empty_index (st : state) (q : list string) :
  INVERTED_INDEX st = ∅ -> scoring_docs st q = [].
Proof.
  intros He. unfold scoring_docs.
  assert (Hnil : q ≫= postings_of st = []).
  { induction q as [| t q IH]; [reflexivity |].
    rewrite bind_cons, IH. unfold postings_of. rewrite He, lookup_empty. reflexivity. }
  rewrite Hnil. reflexivity.
Qed.





(** * Repeated query terms *)









(** * The handler *)

Lemma do_GET_detail (st : state) (p : string) (q k : option string) :
  INIT_ERROR st = None ->
  do_GET st (Request (Some p) q k) = detail st (normalize_doc_id p).
Proof. intros H. unfold do_GET. rewrite H. reflexivity. Qed.

Lemma normalize_doc_id_int (s : string) (n : Z) :
  Py.int s = Some n -> normalize_doc_id s = Py.str n.
Proof. intros H. unfold normalize_doc_id. rewrite H. reflexivity. Qed.

Lemma normalize_doc_id_raw (s : string) :
  Py.int s = None -> normalize_doc_id s = s.
Proof. intros H. unfold normalize_doc_id. rewrite H. reflexivity. Qed.

(** ** [int] reads back what [str] writes *)

Lemma int_digits_acc (d : Decimal.uint) (acc : positive) :
  Py.int_digits (DecimalString.NilEmpty.string_of_uint d) (Z.pos acc) true =
  Some (Z.pos (Pos.of_uint_acc d acc)).
Proof.
  revert acc. induction d; intros acc;
    cbn [DecimalString.NilEmpty.string_of_uint Py.int_digits Pos.of_uint_acc];
    [reflexivity | ..];
    eval_digit; cbv iota; rewrite <- IHd; f_equal; lia.
Qed.

Lemma int_digits_zero (d : Decimal.uint) (seen : bool) :
  d <> Decimal.Nil \/ seen = true ->
  Py.int_digits (DecimalString.NilEmpty.string_of_uint d) 0 seen = Some (Z.of_N (Pos.of_uint d)).
Proof.
  revert seen. induction d; intros seen Hd;
    cbn [DecimalString.NilEmpty.string_of_uint Py.int_digits Pos.of_uint];
    [destruct Hd as [Hd | ->]; [contradiction | reflexivity] | ..];
    eval_digit; cbv iota.
  - apply IHd. right. reflexivity.
  - apply (int_digits_acc d 1).
  - apply (int_digits_acc d 2).
  - apply (int_digits_acc d 3).
  - apply (int_digits_acc d 4).
  - apply (int_digits_acc d 5).
  - apply (int_digits_acc d 6).
  - apply (int_digits_acc d 7).
  - apply (int_digits_acc d 8).
  - apply (int_digits_acc d 9).
Qed.

Lemma uint_no_space (d : Decimal.uint) :
  string_forallb (fun c => negb (Py.c_isspace c)) (DecimalString.NilEmpty.string_of_uint d) = true.
Proof. induction d; simpl; [reflexivity | ..]; exact IHd. Qed.

Lemma lstrip_no_space (sp : ascii -> bool) (s : string) :
  string_forallb (fun c => negb (sp c)) s = true -> Py.lstrip_by sp s = s.
Proof.
  destruct s as [| c s]; simpl; [reflexivity |].
  destruct (sp c); [discriminate | reflexivity].
Qed.

Lemma rstrip_no_space (sp : ascii -> bool) (s : string) :
  string_forallb (fun c => negb (sp c)) s = true -> Py.rstrip_by sp s = s.
Proof.
  induction s as [| c s IH]; simpl; [reflexivity |].
  intros H. apply andb_prop in H as [Hc Hs]. rewrite (IH Hs).
  destruct s; [| reflexivity].
  destruct (sp c); [discriminate | reflexivity].
Qed.

Lemma strip_no_space (sp : ascii -> bool) (s : string) :
  string_forallb (fun c => negb (sp c)) s = true -> Py.strip_by sp s = s.
Proof.
  intros H. unfold Py.strip_by. rewrite (lstrip_no_space sp s H). apply rstrip_no_space, H.
Qed.

Lemma int_of_uint_string (d : Decimal.uint) :
  d <> Decimal.Nil ->
  Py.int (DecimalString.NilEmpty.string_of_uint d) = Some (Z.of_N (Pos.of_uint d)).
Proof.
  intros Hd. unfold Py.int. rewrite (strip_no_space _ _ (uint_no_space d)).
  rewrite <- (int_digits_zero d false) by (left; exact Hd).
  destruct d; [contradiction | ..]; reflexivity.
Qed.

Lemma int_str (n : Z) : Py.int (Py.str n) = Some n.
Proof.
  destruct n as [| p | p]; [reflexivity | |]; unfold Py.str; simpl.
  - pose proof (DecimalPos.Unsigned.to_uint_nonnil p) as Hnn.
    replace (DecimalString.NilZero.string_of_uint (Pos.to_uint p))
      with (DecimalString.NilEmpty.string_of_uint (Pos.to_uint p))
      by (destruct (Pos.to_uint p); [contradiction | ..]; reflexivity).
    rewrite (int_of_uint_string _ Hnn), DecimalPos.Unsigned.of_to. reflexivity.
  - pose proof (DecimalPos.Unsigned.to_uint_nonnil p) as Hnn.
    replace (DecimalString.NilZero.string_of_uint (Pos.to_uint p))
      with (DecimalString.NilEmpty.string_of_uint (Pos.to_uint p))
      by (destruct (Pos.to_uint p); [contradiction | ..]; reflexivity).
    unfold Py.int.
    rewrite strip_no_space by (simpl; apply uint_no_space).
    rewrite (int_digits_zero _ false) by (left; exact Hnn).
    rewrite DecimalPos.Unsigned.of_to. reflexivity.
Qed.

Lemma normalize_doc_id_idempotent (s : string) :
  normalize_doc_id (normalize_doc_id s) = normalize_doc_id s.
Proof.
  destruct (Py.int s) as [n |] eqn:Hs.
  - rewrite (normalize_doc_id_int s n Hs). apply normalize_doc_id_int, int_str.
  - rewrite (normalize_doc_id_raw s Hs). apply normalize_doc_id_raw, Hs.
Qed.

(** C5: the detail branch first tries [str(int(doc_id_param))] and falls
    back to the raw string when [int] raises. Two parameters that parse
    to the same integer give the same key, so the same response ("5" and
    "005", "7" and "007"); that key is canonical, it parses back to the
    same integer and normalises to itself; a parameter that is not an
    integer literal is looked up as it is. *)
Theorem detail_id_normalised (st : state) (p1 p2 : string) (n : Z) (q k : option string) :
  Py.int p1 = Some n -> Py.int p2 = Some n ->
  normalize_doc_id p1 = Py.str n /\
  normalize_doc_id p2 = Py.str n /\
  do_GET st (Request (Some p1) q k) = do_GET st (Request (Some p2) q k) /\
  (INIT_ERROR st = None -> do_GET st (Request (Some p1) q k) = detail st (Py.str n)) /\
  (forall raw,
     Py.int raw = None ->
     normalize_doc_id raw = raw /\
     (INIT_ERROR st = None -> do_GET st (Request (Some raw) q k) = detail st raw)) /\
  (Py.int (Py.str n) = Some n /\ normalize_doc_id (Py.str n) = Py.str n) /\
  (normalize_doc_id "5" = "5" /\ normalize_doc_id "005" = "5") /\
  (normalize_doc_id "7" = "7" /\ normalize_doc_id "007" = "7").
Proof.
  intros H1 H2.
  pose proof (normalize_doc_id_int p1 n H1) as N1.
  pose proof (normalize_doc_id_int p2 n H2) as N2.
  split; [exact N1 |]. split; [exact N2 |]. split; [| split; [| split; [| split; [| split]]]].
  - unfold do_GET. cbn [doc_id_param]. rewrite N1, N2. reflexivity.
  - intros Hinit. rewrite do_GET_detail by exact Hinit. rewrite N1. reflexivity.
  - intros raw Hraw. pose proof (normalize_doc_id_raw raw Hraw) as Nraw.
    split; [exact Nraw |]. intros Hinit.
    rewrite do_GET_detail by exact Hinit. rewrite Nraw. reflexivity.
  - split; [apply int_str | apply normalize_doc_id_int, int_str].
  - split; reflexivity.
  - split; reflexivity.
Qed.

Lemma detail_id_normalised_witness :
  do_GET example_state (Request (Some "1") None None) =
  do_GET example_state (Request (Some " +01 ") None None) /\
  normalize_doc_id "berita-7" = "berita-7".
Proof.
  assert (H1 : Py.int "1" = Some 1%Z) by reflexivity.
  assert (H2 : Py.int " +01 " = Some 1%Z) by reflexivity.
  destruct (detail_id_normalised example_state "1" " +01 " 1 None None H1 H2)
    as (_ & _ & Hsame & _ & Hraw & _).
  split; [exact Hsame |].
  apply (Hraw "berita-7"). reflexivity.
Defined.

Lemma detail_not_found (st : state) (id : string) :
  DOC_META st !! id = None -> default "" (DOC_CONTENT st !! id) = "" ->
  detail st id = not_found_response id.
Proof. intros Hm Hc. unfold detail. rewrite Hm, Hc. reflexivity. Qed.

Lemma detail_meta (st : state) (id : string) (m : meta) :
  DOC_META st !! id = Some m ->
  detail st id =
  send 200 (detail_record id (m_title m) (m_url m) (m_image_url m) (Some (m_doc_len m))
              (default "" (DOC_CONTENT st !! id))).
Proof. intros Hm. unfold detail. rewrite Hm. reflexivity. Qed.

Lemma detail_content_only (st : state) (id : string) :
  DOC_META st !! id = None -> default "" (DOC_CONTENT st !! id) <> "" ->
  detail st id =
  send 200 (detail_record id "Untitled" "" "" None (default "" (DOC_CONTENT st !! id))).
Proof.
  intros Hm Hc. unfold detail. rewrite Hm.
  destruct (String.eqb_spec (default "" (DOC_CONTENT st !! id)) ""); [contradiction | reflexivity].
Qed.

(** C6, amended: the detail operation answers DOCUMENT_NOT_FOUND exactly
    when the identifier has no metadata and its content is missing or is
    the empty string. Otherwise it returns the record
    [{doc_id, title, url, image_url, doc_len, content}], where an
    identifier without metadata gets the title "Untitled", empty url and
    image_url and a null doc_len, and an identifier without content gets
    the empty content. *)
Theorem detail_not_found_iff (st : state) (id : string) :
  (detail st id = not_found_response id <->
   DOC_META st !! id = None /\ default "" (DOC_CONTENT st !! id) = "") /\
  (forall m,
     DOC_META st !! id = Some m ->
     detail st id =
     send 200 (detail_record id (m_title m) (m_url m) (m_image_url m) (Some (m_doc_len m))
                 (default "" (DOC_CONTENT st !! id)))) /\
  (forall m,
     DOC_META st !! id = Some m -> DOC_CONTENT st !! id = None ->
     detail st id =
     send 200 (detail_record id (m_title m) (m_url m) (m_image_url m) (Some (m_doc_len m)) "")) /\
  (forall c,
     DOC_META st !! id = None -> DOC_CONTENT st !! id = Some c -> c <> "" ->
     detail st id = send 200 (detail_record id "Untitled" "" "" None c)) /\
  (forall p q k,
     INIT_ERROR st = None ->
     do_GET st (Request (Some p) q k) = detail st (normalize_doc_id p)).
Proof.
  split; [| split; [| split; [| split]]].
  - split.
    + intros H. destruct (DOC_META st !! id) as [m |] eqn:Hm.
      * rewrite (detail_meta st id m Hm) in H. discriminate H.
      * split; [reflexivity |].
        destruct (String.eqb_spec (default "" (DOC_CONTENT st !! id)) "") as [Hc | Hc]; [exact Hc |].
        rewrite (detail_content_only st id Hm Hc) in H. discriminate H.
    + intros [Hm Hc]. apply detail_not_found; assumption.
  - intros m Hm. apply detail_meta, Hm.
  - intros m Hm Hc. rewrite (detail_meta st id m Hm), Hc. reflexivity.
  - intros c Hm Hc Hne. rewrite detail_content_only; rewrite ?Hc; [reflexivity | exact Hm | exact Hne].
  - intros p q k. apply do_GET_detail.
Qed.

Lemma detail_not_found_iff_witness :
  detail example_state "42" = not_found_response "42" /\
  detail example_state "1" =
    send 200 (detail_record "1" "Kompas pagi" "https://example.org/pagi" "" (Some 30%Z) "") /\
  detail failed_state "3" = send 200 (detail_record "3" "Berita 3" "" "" (Some 40%Z) "") /\
  detail empty_content_state "0" = not_found_response "0".
Proof.
  destruct (detail_not_found_iff example_state "42") as ([_ H1] & _).
  destruct (detail_not_found_iff example_state "1") as (_ & H2 & _).
  destruct (detail_not_found_iff failed_state "3") as (_ & _ & H3 & _).
  destruct (detail_not_found_iff empty_content_state "0") as ([_ H4] & _).
  split; [| split; [| split]].
  - apply H1. split; vm_compute; reflexivity.
  - apply (H2 (Meta "https://example.org/pagi" "Kompas pagi" "" 30)). vm_compute. reflexivity.
  - apply (H3 (Meta "" "Berita 3" "" 40)); vm_compute; reflexivity.
  - apply H4. split; vm_compute; reflexivity.
Defined.

(** C6 as stated fails: an identifier the content table knows, with empty
    text and no metadata, is answered DOCUMENT_NOT_FOUND. *)
Lemma detail_not_found_counterexample :
  load_content (Some "  ") = "" /\
  DOC_CONTENT empty_content_state !! "0" = Some "" /\
  do_GET empty_content_state (Request (Some "0") None None) = not_found_response "0" /\
  ~ (forall st id,
       detail st id = not_found_response id <->
       DOC_META st !! id = None /\ DOC_CONTENT st !! id = None).
Proof.
  split; [reflexivity |].
  split; [vm_compute; reflexivity |]. split; [vm_compute; reflexivity |].
  intros H. destruct (H empty_content_state "0") as [H1 _].
  assert (Hnf : detail empty_content_state "0" = not_found_response "0")
    by (vm_compute; reflexivity).
  destruct (H1 Hnf) as [_ Hc]. vm_compute in Hc. discriminate Hc.
Qed.

Lemma do_GET_search (st : state) (req : request) :
  INIT_ERROR st = None -> doc_id_param req = None ->
  do_GET st req =
  search st (Py.strip (default "" (q_param req))) (default "20" (top_k_param req)).
Proof. intros Hinit Hid. unfold do_GET. rewrite Hinit, Hid. reflexivity. Qed.

(** C7: the search operation answers a query text that is empty after
    [strip] with the 400 "q is required" response, whatever the tables
    hold, so nothing is ranked; any other query text is lowercased, split
    on whitespace and handed to [bm25_search], whose result list (or
    exception) makes the response. The handler runs the search operation
    on the stripped q parameter whenever no load error is set and no
    doc_id parameter is given. *)
Theorem search_requires_query :
  (forall (st : state) (q_text top_k_str : string),
     (Py.strip q_text = "" ->
      search st (Py.strip q_text) top_k_str = missing_query_response /\
      status (search st (Py.strip q_text) top_k_str) = 400%Z /\
      forall st', search st' (Py.strip q_text) top_k_str = search st (Py.strip q_text) top_k_str) /\
     (Py.strip q_text <> "" ->
      search st (Py.strip q_text) top_k_str =
      match bm25_search st (Py.split (Py.lower (Py.strip q_text))) (parse_top_k top_k_str) with
      | Ok results => search_response (Py.strip q_text) results
      | Raise e => runtime_error_response e
      end)) /\
  (forall (st : state) (req : request),
     INIT_ERROR st = None -> doc_id_param req = None ->
     do_GET st req =
     search st (Py.strip (default "" (q_param req))) (default "20" (top_k_param req))).
Proof.
  split.
  - intros st q_text top_k_str. split.
    + intros Hq. rewrite Hq. split; [reflexivity |]. split; reflexivity.
    + intros Hq. unfold search.
      destruct (String.eqb_spec (Py.strip q_text) ""); [contradiction | reflexivity].
  - intros st req. apply do_GET_search.
Qed.

Lemma search_requires_query_witness :
  do_GET zero_length_state (Request None (Some "   ") (Some "20")) = missing_query_response /\
  do_GET zero_length_state (Request None (Some " A ") (Some "20")) =
    runtime_error_response ZeroDivisionError /\
  do_GET example_state (Request None (Some " Kompas ") (Some "1")) =
    search_response "Kompas" [example_hit_0].
Proof.
  destruct search_requires_query as [Hsearch Hroute].
  split; [| split].
  - rewrite (Hroute zero_length_state (Request None (Some "   ") (Some "20")) eq_refl eq_refl).
    exact (proj1 (proj1 (Hsearch zero_length_state "   " "20") eq_refl)).
  - rewrite (Hroute zero_length_state (Request None (Some " A ") (Some "20")) eq_refl eq_refl).
    cbn [q_param top_k_param default from_option Datatypes.id].
    rewrite (proj2 (Hsearch zero_length_state " A " "20")) by discriminate.
    change (Py.split _) with ["a"]. rewrite zero_length_search. reflexivity.
  - rewrite (Hroute example_state (Request None (Some " Kompas ") (Some "1")) eq_refl eq_refl).
    cbn [q_param top_k_param default from_option Datatypes.id].
    rewrite (proj2 (Hsearch example_state " Kompas " "1")) by discriminate.
    change (Py.split _) with ["kompas"]. rewrite example_kompas_search. reflexivity.
Defined.

(** C8: when [INIT_ERROR] is set, every request, detail or search, is
    answered with the same 500 INIT_ERROR response carrying that message;
    the response depends neither on the request nor on any table, so no
    lookup and no ranking takes part in it. *)
Theorem init_error_refuses (st : state) (msg : string) (req : request) :
  INIT_ERROR st = Some msg ->
  do_GET st req = init_error_response msg /\
  status (do_GET st req) = 500%Z /\
  body (do_GET st req) = JObj [("error", JStr "INIT_ERROR"); ("message", JStr msg)] /\
  forall st' req', INIT_ERROR st' = Some msg -> do_GET st' req' = do_GET st req.
Proof.
  intros Hinit.
  assert (Hall : forall st' req', INIT_ERROR st' = Some msg ->
                                  do_GET st' req' = init_error_response msg).
  { intros st' req' H'. unfold do_GET. rewrite H'. reflexivity. }
  rewrite (Hall st req Hinit). split; [reflexivity |]. split; [reflexivity |].
  split; [reflexivity |]. intros st' req' H'. apply Hall, H'.
Qed.

Lemma init_error_refuses_witness :
  do_GET failed_state (Request (Some "0") None None) =
    init_error_response "Failed to load inverted_index.json: No such file" /\
  do_GET failed_state (Request None (Some "kompas") None) =
    init_error_response "Failed to load inverted_index.json: No such file".
Proof.
  split.
  - exact (proj1 (init_error_refuses failed_state _ (Request (Some "0") None None) eq_refl)).
  - exact (proj1 (init_error_refuses failed_state _ (Request None (Some "kompas") None) eq_refl)).
Defined.

(** * The inverse document frequency *)

Lemma idf_formula_pos (N df : Z) :
  (0 <= df <= N)%Z -> 0 < idf_formula N df.
Proof.
  intros [Hdf HN]. unfold idf_formula. apply ln_pos.
  apply IZR_le in Hdf, HN.
  assert (0 < (IZR N - IZR df + 0.5) / (IZR df + 0.5)) by (apply Rdiv_lt_0_compat; lra).
  lra.
Qed.

(** C9: for a collection size [N >= 1] and a document frequency
    [df <= N], [idf] raises nothing and its value
    [ln((N - df + 0.5)/(df + 0.5) + 1)] is not negative. *)
Theorem idf_nonneg (N df : nat) :
  (1 <= N)%nat -> (df <= N)%nat ->
  exists v,
    idf (Z.of_nat N) (Z.of_nat df) = Ok v /\
    v = ln ((INR N - INR df + 0.5) / (INR df + 0.5) + 1) /\
    0 <= v.
Proof.
  intros HN Hdf. exists (idf_formula (Z.of_nat N) (Z.of_nat df)).
  split; [apply idf_Ok; lia |]. split.
  - unfold idf_formula. rewrite <- !INR_IZR_INZ. reflexivity.
  - left. apply idf_formula_pos. lia.
Qed.

Lemma idf_nonneg_witness :
  exists v, idf 10 2 = Ok v /\ v = ln ((INR 10 - INR 2 + 0.5) / (INR 2 + 0.5) + 1) /\ 0 <= v.
Proof. apply (idf_nonneg 10 2); lia. Defined.

(** * Positive scores *)

Lemma Rsum_pos (xs : list R) : xs <> [] -> Forall (fun x => 0 < x) xs -> 0 < Rsum xs.
Proof.
  intros Hne Hall. destruct xs as [| x xs]; [contradiction |].
  apply Forall_cons in Hall as [Hx Hall]. simpl.
  assert (0 <= Rsum xs); [| lra].
  clear Hne Hx. induction Hall as [| y ys Hy _ IH]; simpl; lra.
Qed.

Lemma posting_score_pos (st : state) (avg idf_t : R) (p : string * Z) :
  lengths_nonneg st -> 0 < avg -> 0 < idf_t -> (1 <= p.2)%Z ->
  0 < posting_score st avg idf_t p.
Proof.
  intros Hlen Havg Hidf Htf. unfold posting_score.
  apply IZR_le in Htf.
  apply Rmult_lt_0_compat; [exact Hidf |].
  apply Rdiv_lt_0_compat.
  - unfold k1. nra.
  - apply denominator_pos; [lra | | exact Havg].
    apply doc_length_nonneg; [exact Hlen | lra].
Qed.

Lemma contributions_pos (st : state) (avg : R) (q : list string) :
  freqs_pos st -> df_le_N st -> lengths_nonneg st -> 0 < avg ->
  Forall (fun it : string * R => 0 < it.2) (contributions st avg q).
Proof.
  intros Hfreq Hdf Hlen Havg. apply Forall_forall. intros it Hit.
  unfold contributions in Hit.
  apply list_elem_of_bind in Hit as (t & Hit & _).
  apply list_elem_of_fmap in Hit as (p & -> & Hp). cbn [snd].
  unfold postings_of in *.
  destruct (INVERTED_INDEX st !! t) as [ps |] eqn:Ht; simpl in *; [| inversion Hp].
  pose proof (Hfreq t ps Ht) as Hps. rewrite Forall_forall in Hps.
  pose proof (Hdf t ps Ht) as Hle. simpl in Hle.
  apply posting_score_pos; [exact Hlen | exact Havg | | exact (Hps p Hp)].
  apply idf_formula_pos. lia.
Qed.

(** Where some posting is scored without exception, the average length
    is not zero. *)
Lemma query_defined_avg (st : state) (avg : R) (q : list string) (d : string) :
  query_defined st avg q -> d ∈ (q ≫= postings_of st).*1 -> avg <> 0.
Proof.
  unfold query_defined. intros Hdef Hd.
  apply list_elem_of_fmap in Hd as (p & _ & Hp).
  rewrite Forall_forall in Hdef. exact (proj1 (Hdef p Hp)).
Qed.

Lemma scored_doc_positive (st : state) (q : list string) (sc : scores_t) (d : string) :
  freqs_pos st -> df_le_N st -> lengths_nonneg st ->
  bm25_scores st q = Ok sc -> d ∈ sc.*1 -> 0 < scores_get sc d.
Proof.
  intros Hfreq Hdf Hlen Hsc Hd.
  pose proof (proj1 (bm25_scores_keys st q sc d Hsc) Hd) as Hkeys.
  apply bm25_scores_iff in Hsc as (_ & Hdef & ->).
  assert (Havg : 0 < mean_length st).
  { pose proof (mean_length_nonneg st Hlen).
    pose proof (query_defined_avg st _ q d Hdef Hkeys). lra. }
  rewrite accumulate_get. simpl scores_get. rewrite Rplus_0_l.
  pose proof (contributions_pos st _ q Hfreq Hdf Hlen Havg) as Hpos.
  rewrite <- contributions_keys with (avg := mean_length st) in Hkeys.
  apply list_elem_of_fmap in Hkeys as (it & Hit1 & Hit).
  apply Rsum_pos.
  - intros Hnil. apply fmap_nil_inv in Hnil.
    eapply (filter_nil_not_elem_of _ _ it Hnil); [symmetry; exact Hit1 | exact Hit].
  - apply Forall_fmap. apply Forall_forall. intros x Hx.
    apply list_elem_of_filter in Hx as [_ Hx].
    rewrite Forall_forall in Hpos. exact (Hpos x Hx).
Qed.

Lemma scoring_docs_elem_of (st : state) (q : list string) (d : string) :
  d ∈ scoring_docs st q <-> exists t, t ∈ q /\ d ∈ (postings_of st t).*1.
Proof.
  unfold scoring_docs. rewrite elem_of_remove_dups, list_elem_of_fmap. split.
  - intros (p & -> & Hp). apply list_elem_of_bind in Hp as (t & Hp & Ht).
    exists t. split; [exact Ht | apply list_elem_of_fmap_2, Hp].
  - intros (t & Ht & Hd). apply list_elem_of_fmap in Hd as (p & -> & Hp).
    exists p. split; [reflexivity |]. apply list_elem_of_bind. exists t. auto.
Qed.

(** C10, amended: when every stored term frequency is at least 1, no
    term occurs in more than [N] documents and no stored document length
    is negative, every entry of a result list has a strictly positive
    score and its document is in the postings of some query term; a
    document in no query term's postings is never returned. *)
Theorem hits_positive_and_matching (st : state) (query_terms : list string) (top_k : Z)
    (results : list hit) :
  freqs_pos st -> df_le_N st -> lengths_nonneg st ->
  bm25_search st query_terms top_k = Ok results ->
  (forall h, h ∈ results ->
     0 < score h /\
     exists t, t ∈ query_terms /\ doc_id h ∈ (postings_of st t).*1) /\
  (forall d,
     (forall t, t ∈ query_terms -> d ∉ (postings_of st t).*1) ->
     d ∉ doc_id <$> results).
Proof.
  intros Hfreq Hdf Hlen Hres.
  assert (Hmatch : forall h, h ∈ results ->
            0 < score h /\ doc_id h ∈ scoring_docs st query_terms).
  { apply bm25_search_inv in Hres as [[_ ->] | (_ & sc & Hsc & ->)];
      intros h Hh; [inversion Hh |].
    apply hit_in_scores in Hh.
    assert (Hkey : doc_id h ∈ sc.*1)
      by (apply list_elem_of_fmap; exists (doc_id h, score h); split; [reflexivity | exact Hh]).
    split.
    - rewrite <- (scores_get_elem_of sc _ _ (bm25_scores_NoDup st _ _ Hsc) Hh).
      eapply scored_doc_positive; eassumption.
    - rewrite <- (bm25_scores_docs st _ _ Hsc). exact Hkey. }
  split.
  - intros h Hh. destruct (Hmatch h Hh) as [Hpos Hin].
    split; [exact Hpos | apply scoring_docs_elem_of, Hin].
  - intros d Hnone Hd. apply list_elem_of_fmap in Hd as (h & -> & Hh).
    destruct (Hmatch h Hh) as [_ Hin].
    apply scoring_docs_elem_of in Hin as (t & Ht & Hin). exact (Hnone t Ht Hin).
Qed.

Lemma hits_positive_and_matching_witness :
  0 < score example_hit_0 /\ 0 < score example_hit_1 /\
  "2" ∉ doc_id <$> [example_hit_0; example_hit_1].
Proof.
  destruct (hits_positive_and_matching example_state ["kompas"] 20 _
              example_freqs_pos example_df_le_N example_lengths_nonneg
              (example_kompas_search 20)) as [Hpos Hnone].
  split; [| split].
  - apply (Hpos example_hit_0). apply list_elem_of_here.
  - apply (Hpos example_hit_1). apply list_elem_of_further, list_elem_of_here.
  - apply (Hnone "2"). intros t Ht. apply list_elem_of_singleton in Ht as ->.
    vm_compute. intros Hin.
    apply elem_of_cons in Hin as [Hin | Hin]; [discriminate Hin |].
    apply list_elem_of_singleton in Hin. discriminate Hin.
Defined.

Lemma negative_length_mean : mean_length negative_length_state = 1.
Proof.
  unfold mean_length. destruct (decide _) as [He | Hne].
  - exfalso. apply (f_equal size) in He. vm_compute in He. discriminate.
  - replace (sum_lengths negative_length_state) with 2%Z by (vm_compute; reflexivity).
    replace (size (DOC_LENGTHS negative_length_state)) with 2%nat by (vm_compute; reflexivity).
    simpl. lra.
Qed.

Lemma negative_length_defined :
  query_defined negative_length_state (mean_length negative_length_state) ["a"].
Proof.
  rewrite negative_length_mean. unfold query_defined.
  replace (["a"] ≫= postings_of negative_length_state) with [("0", 1%Z)]
    by (vm_compute; reflexivity).
  constructor; [| constructor]. unfold posting_defined, doc_length. eval_lookups.
  cbn [fmap option_fmap option_map default fst snd Datatypes.id]. unfold k1, b.
  split; [lra |]. split; [lra |]. split; [vm_compute; reflexivity |].
  intros n Hn. injection Hn as <-. vm_compute. reflexivity.
Qed.

Lemma negative_length_mean_fits : mean_fits negative_length_state.
Proof. right. vm_compute. reflexivity. Qed.

Lemma negative_length_search (k : Z) :
  bm25_search negative_length_state ["a"] k =
  Ok (slice_to k [Hit "0" "Minus" "" "" (Some (-30)%Z) negative_length_score]).
Proof.
  unfold bm25_search. destruct (decide _) as [He | Hne].
  { exfalso. apply (f_equal size) in He. vm_compute in He. discriminate. }
  rewrite (bm25_scores_Ok _ _ negative_length_mean_fits negative_length_defined).
  unfold mbind, result_bind, mret, result_ret. rewrite negative_length_mean.
  unfold contributions. rewrite bind_cons. change ([] ≫= _) with (@nil (string * R)).
  replace (postings_of negative_length_state "a") with [("0", 1%Z)] by (vm_compute; reflexivity).
  cbn [fmap list_fmap app accumulate foldl scores_add fst snd length sorted_desc foldr insert_desc].
  change (N_docs negative_length_state) with 2%Z. change (Z.of_nat 1) with 1%Z.
  replace (idf_formula 2 1) with (ln 2) by (unfold idf_formula; f_equal; lra).
  unfold posting_score, doc_length. eval_lookups.
  cbn [fmap option_fmap option_map default fst snd Datatypes.id].
  replace (0 + ln 2 * (1 * (k1 + 1) / (1 + k1 * (1 - b + b * (-30 / 1)))))
    with negative_length_score by (unfold negative_length_score, k1, b; lra).
  unfold slice_to. destruct (0 <=? k)%Z; rewrite fmap_take; reflexivity.
Qed.

(** C10 as stated fails: the loader accepts a negative doc_len, and with
    every frequency at least 1 and [df <= N] a negative stored length
    makes a denominator, and so a returned score, negative. *)
Lemma hits_positive_counterexample :
  load_doc_len (Some "-30") = Some (-30)%Z /\
  freqs_pos negative_length_state /\
  df_le_N negative_length_state /\
  bm25_search negative_length_state ["a"] 20 =
    Ok [Hit "0" "Minus" "" "" (Some (-30)%Z) negative_length_score] /\
  negative_length_score < 0.
Proof.
  split; [reflexivity |]. split; [| split; [| split]].
  - unfold freqs_pos. apply (bool_decide_unpack (map_Forall _ _)). vm_compute. exact I.
  - unfold df_le_N. apply (bool_decide_unpack (map_Forall _ _)). vm_compute. exact I.
  - rewrite negative_length_search. reflexivity.
  - unfold negative_length_score.
    assert (Hln : 0 < ln 2) by (apply ln_pos; lra).
    replace (ln 2 * (1 * 2.5) / (1 + 1.5 * (0.25 + 0.75 * -30 / 1)))
      with (- (ln 2 * (20 / 259))) by lra.
    nra.
Qed.

(** * The corpus loader *)

Lemma str_inj (a c : Z) : Py.str a = Py.str c -> a = c.
Proof.
  intros H. apply (f_equal Py.int) in H. rewrite !int_str in H.
  injection H as ->. reflexivity.
Qed.

Lemma str_of_nat_inj (i j : nat) :
  Py.str (Z.of_nat i) = Py.str (Z.of_nat j) -> i = j.
Proof. intros H. apply str_inj in H. lia. Qed.

(** A key that is not the number of one of [rows] is left as it was. *)
Lemma load_content_rows_other (rows : list (option string)) (idx : nat)
    (content : gmap string string) (key : string) :
  (forall j, (j < length rows)%nat -> key <> Py.str (Z.of_nat (idx + j))) ->
  load_content_rows idx rows content !! key = content !! key.
Proof.
  revert idx content. induction rows as [| row rest IH]; intros idx content Hkey; [reflexivity |].
  simpl. rewrite IH.
  - apply lookup_insert_ne. intros Heq. apply (Hkey 0%nat); [simpl; lia |].
    rewrite Nat.add_0_r. symmetry. exact Heq.
  - intros j Hj. replace (S idx + j)%nat with (idx + S j)%nat by lia.
    apply Hkey. simpl. lia.
Qed.

Lemma load_content_rows_lookup (rows : list (option string)) (idx : nat)
    (content : gmap string string) (i : nat) (row : option string) :
  rows !! i = Some row ->
  load_content_rows idx rows content !! Py.str (Z.of_nat (idx + i)) = Some (load_content row).
Proof.
  revert idx content i. induction rows as [| r rest IH]; intros idx content i Hi; [inversion Hi |].
  destruct i as [| i]; simpl in *.
  - injection Hi as ->. rewrite Nat.add_0_r, load_content_rows_other.
    + apply lookup_insert_eq.
    + intros j _ Heq. apply str_of_nat_inj in Heq. lia.
  - replace (idx + S i)%nat with (S idx + i)%nat by lia. apply IH, Hi.
Qed.

Lemma load_content_rows_size (rows : list (option string)) (idx : nat)
    (content : gmap string string) :
  (forall j, content !! Py.str (Z.of_nat (idx + j)) = None) ->
  size (load_content_rows idx rows content) = (size content + length rows)%nat.
Proof.
  revert idx content. induction rows as [| row rest IH]; intros idx content Hfresh; simpl; [lia |].
  rewrite IH.
  - rewrite map_size_insert_None; [lia |].
    specialize (Hfresh 0%nat). rewrite Nat.add_0_r in Hfresh. exact Hfresh.
  - intros j. rewrite lookup_insert_ne.
    + replace (S idx + j)%nat with (idx + S j)%nat by lia. apply Hfresh.
    + intros Heq. apply str_of_nat_inj in Heq. lia.
Qed.

Lemma load_content_rows_dom (rows : list (option string)) (idx : nat)
    (content : gmap string string) (key : string) :
  is_Some (load_content_rows idx rows content !! key) ->
  is_Some (content !! key) \/
  exists j : nat, (j < length rows)%nat /\ key = Py.str (Z.of_nat (idx + j)).
Proof.
  revert idx content. induction rows as [| row rest IH]; intros idx content Hsome; [left; exact Hsome |].
  simpl in Hsome. destruct (IH _ _ Hsome) as [Hin | (j & Hj & ->)].
  - destruct (decide (Py.str (Z.of_nat idx) = key)) as [<- | Hne].
    + right. exists 0%nat. split; [simpl; lia | rewrite Nat.add_0_r; reflexivity].
    + left. rewrite lookup_insert_ne in Hin by exact Hne. exact Hin.
  - right. exists (S j). split; [simpl; lia |]. f_equal. lia.
Qed.

Lemma load_DOC_CONTENT (int_error : string -> string)
    (index_file : file (gmap string (list (string * Z))))
    (meta_file : file (list meta_row)) (corpus_file : file (list (option string))) :
  DOC_CONTENT (load int_error index_file meta_file corpus_file) =
  match corpus_file with
  | Contents rows => load_content_rows 0 rows ∅
  | _ => ∅
  end.
Proof.
  unfold load. destruct meta_file as [| msg | rows]; try reflexivity.
  destruct (load_meta_rows int_error rows ∅ ∅) as [[dm dl] [msg |]]; reflexivity.
Qed.

Lemma corpus_rows_lookup (int_error : string -> string)
    (index_file : file (gmap string (list (string * Z))))
    (meta_file : file (list meta_row)) (rows : list (option string)) :
  (forall i : nat,
     DOC_CONTENT (load int_error index_file meta_file (Contents rows))
       !! Py.str (Z.of_nat i) = load_content <$> rows !! i) /\
  (forall key,
     is_Some (DOC_CONTENT (load int_error index_file meta_file (Contents rows)) !! key) ->
     exists i : nat, (i < length rows)%nat /\ key = Py.str (Z.of_nat i)).
Proof.
  rewrite load_DOC_CONTENT. split.
  - intros i. destruct (rows !! i) as [row |] eqn:Hi; simpl.
    + apply (load_content_rows_lookup rows 0 ∅ i row Hi).
    + rewrite load_content_rows_other; [apply lookup_empty |].
      intros j Hj Heq. apply str_of_nat_inj in Heq. simpl in Heq. subst i.
      apply lookup_ge_None in Hi. lia.
  - intros key Hsome. destruct (load_content_rows_dom rows 0 ∅ key Hsome) as [Hin | Hex].
    + rewrite lookup_empty in Hin. destruct Hin as [c Hc]. discriminate Hc.
    + exact Hex.
Qed.

(** X1: after corpus_clean_v2.csv is read, the content table has exactly
    one entry per row: row number [i] (counted from 0) is stored, stripped,
    under the key [str(i)], whatever happened to the other two files, and
    no other key is stored. *)
Theorem corpus_rows_by_number (int_error : string -> string)
    (index_file : file (gmap string (list (string * Z))))
    (meta_file : file (list meta_row)) (rows : list (option string)) :
  (forall i : nat,
     DOC_CONTENT (load int_error index_file meta_file (Contents rows))
       !! Py.str (Z.of_nat i) = load_content <$> rows !! i) /\
  (forall key,
     is_Some (DOC_CONTENT (load int_error index_file meta_file (Contents rows)) !! key) ->
     exists i : nat, (i < length rows)%nat /\ key = Py.str (Z.of_nat i)) /\
  size (DOC_CONTENT (load int_error index_file meta_file (Contents rows))) = length rows.
Proof.
  destruct (corpus_rows_lookup int_error index_file meta_file rows) as [Hlookup Hdom].
  split; [exact Hlookup |]. split; [exact Hdom |].
  rewrite load_DOC_CONTENT, load_content_rows_size; [rewrite map_size_empty; lia |].
  intros j. apply lookup_empty.
Qed.

Lemma detail_found (st : state) (id : string) :
  default "" (DOC_CONTENT st !! id) <> "" \/ is_Some (DOC_META st !! id) ->
  detail st id =
  send 200 (detail_record id
              (default (Str "Untitled") (m_title <$> DOC_META st !! id))
              (default (Str "") (m_url <$> DOC_META st !! id))
              (default (Str "") (m_image_url <$> DOC_META st !! id))
              (m_doc_len <$> DOC_META st !! id)
              (default "" (DOC_CONTENT st !! id))).
Proof.
  intros Hsome. unfold detail.
  destruct (DOC_META st !! id) as [m |] eqn:Hm; [reflexivity |].
  destruct Hsome as [Hne | [m' Hm']]; [| discriminate Hm'].
  destruct (String.eqb_spec (default "" (DOC_CONTENT st !! id)) ""); [contradiction | reflexivity].
Qed.

(** X2: a detail request whose doc_id parameter is any integer form of a
    row number reaches that row of corpus_clean_v2.csv: when the row has
    text (or the document has metadata) the answer is 200 with the row's
    stripped text as content and the metadata or its defaults; when the
    row is empty or missing and the document has no metadata the answer
    is 404 for the canonical id. *)
Theorem detail_reaches_row (int_error : string -> string)
    (index_file : file (gmap string (list (string * Z))))
    (meta_file : file (list meta_row)) (rows : list (option string))
    (p : string) (i : nat) (q k : option string) :
  INIT_ERROR (load int_error index_file meta_file (Contents rows)) = None ->
  Py.int p = Some (Z.of_nat i) ->
  (forall row,
     rows !! i = Some row ->
     load_content row <> "" \/
       is_Some (DOC_META (load int_error index_file meta_file (Contents rows))
                  !! Py.str (Z.of_nat i)) ->
     do_GET (load int_error index_file meta_file (Contents rows)) (Request (Some p) q k) =
     send 200
       (detail_record (Py.str (Z.of_nat i))
          (default (Str "Untitled")
             (m_title <$> DOC_META (load int_error index_file meta_file (Contents rows))
                            !! Py.str (Z.of_nat i)))
          (default (Str "")
             (m_url <$> DOC_META (load int_error index_file meta_file (Contents rows))
                          !! Py.str (Z.of_nat i)))
          (default (Str "")
             (m_image_url <$> DOC_META (load int_error index_file meta_file (Contents rows))
                                !! Py.str (Z.of_nat i)))
          (m_doc_len <$> DOC_META (load int_error index_file meta_file (Contents rows))
                           !! Py.str (Z.of_nat i))
          (load_content row))) /\
  (default "" (load_content <$> rows !! i) = "" ->
   DOC_META (load int_error index_file meta_file (Contents rows)) !! Py.str (Z.of_nat i) = None ->
   do_GET (load int_error index_file meta_file (Contents rows)) (Request (Some p) q k) =
   not_found_response (Py.str (Z.of_nat i))).
Proof.
  intros Hinit Hp.
  pose proof (proj1 (corpus_rows_lookup int_error index_file meta_file rows) i) as Hrow.
  rewrite do_GET_detail by exact Hinit. rewrite (normalize_doc_id_int p _ Hp).
  split.
  - intros row Hi Hsome. rewrite Hi in Hrow. simpl in Hrow.
    rewrite detail_found; rewrite Hrow; [reflexivity | exact Hsome].
  - intros Hempty Hm. apply detail_not_found; [exact Hm |].
    rewrite Hrow. exact Hempty.
Qed.

Lemma detail_reaches_row_witness :
  do_GET (load plain_int_error (Contents example_index) NotFound (Contents example_corpus_rows))
         (Request (Some "000") None None) =
    send 200 (detail_record "0" "Untitled" "" "" None "isi berita") /\
  do_GET (load plain_int_error (Contents example_index) NotFound (Contents example_corpus_rows))
         (Request (Some " 1 ") (Some "kompas") None) =
    not_found_response "1".
Proof.
  assert (H0 : Py.int "000" = Some (Z.of_nat 0)) by reflexivity.
  assert (H1 : Py.int " 1 " = Some (Z.of_nat 1)) by reflexivity.
  destruct (detail_reaches_row plain_int_error (Contents example_index) NotFound
              example_corpus_rows "000" 0 None None eq_refl H0) as [Hok _].
  destruct (detail_reaches_row plain_int_error (Contents example_index) NotFound
              example_corpus_rows " 1 " 1 (Some "kompas") None eq_refl H1) as [_ Hnf].
  split.
  - assert (Htext : load_content (Some " isi berita ") <> "") by (vm_compute; discriminate).
    rewrite (Hok (Some " isi berita ") eq_refl (or_introl Htext)).
    vm_compute. reflexivity.
  - apply Hnf; vm_compute; reflexivity.
Defined.

(** * The metadata loader *)

Section MetaLoader.

Context (int_error : string -> string).

Lemma load_meta_rows_app (l1 l2 : list meta_row) (dm : gmap string meta) (dl : gmap string Z) :
  load_meta_rows int_error (l1 ++ l2) dm dl =
  match load_meta_rows int_error l1 dm dl with
  | (dm1, dl1, None) => load_meta_rows int_error l2 dm1 dl1
  | failed => failed
  end.
Proof.
  revert dm dl. induction l1 as [| row l1 IH]; intros dm dl; simpl; [reflexivity |].
  destruct (row_skipped row); [apply IH |].
  destruct (load_doc_len (r_doc_len row)) as [n |]; [apply IH | reflexivity].
Qed.

(** The loop keeps the lengths table equal to the doc_len column of the
    metadata table. *)
Lemma load_meta_rows_mirror (rows : list meta_row) (dm : gmap string meta) (dl : gmap string Z) :
  dl = m_doc_len <$> dm ->
  (load_meta_rows int_error rows dm dl).1.2 =
  m_doc_len <$> (load_meta_rows int_error rows dm dl).1.1.
Proof.
  revert dm dl. induction rows as [| row rows IH]; intros dm dl Hdl; simpl; [exact Hdl |].
  destruct (row_skipped row); [apply IH, Hdl |].
  destruct (load_doc_len (r_doc_len row)) as [n |]; simpl; [| exact Hdl].
  apply IH. rewrite fmap_insert, Hdl. reflexivity.
Qed.

(** Every entry the loop adds comes from a row that is not skipped. *)
Lemma load_meta_rows_origin (rows : list meta_row) (dm : gmap string meta) (dl : gmap string Z)
    (id : string) (m : meta) :
  (load_meta_rows int_error rows dm dl).1.1 !! id = Some m ->
  dm !! id = Some m \/
  exists row n,
    row ∈ rows /\ row_skipped row = false /\ row_doc_id row = id /\
    load_doc_len (r_doc_len row) = Some n /\ m = row_meta row n.
Proof.
  revert dm dl. induction rows as [| row rows IH]; intros dm dl Hm; simpl in Hm; [left; exact Hm |].
  destruct (row_skipped row) eqn:Hskip.
  - destruct (IH _ _ Hm) as [Hin | (r & n & Hr & H)]; [left; exact Hin |].
    right. exists r, n. split; [apply list_elem_of_further, Hr | exact H].
  - destruct (load_doc_len (r_doc_len row)) as [n |] eqn:Hlen; simpl in Hm; [| left; exact Hm].
    destruct (IH _ _ Hm) as [Hin | (r & n' & Hr & H)].
    + destruct (decide (row_doc_id row = id)) as [Hid | Hid].
      * right. exists row, n. rewrite Hid, lookup_insert_eq in Hin. injection Hin as <-.
        split; [apply list_elem_of_here |]. auto.
      * left. rewrite lookup_insert_ne in Hin by exact Hid. exact Hin.
    + right. exists r, n'. split; [apply list_elem_of_further, Hr | exact H].
Qed.

(** Rows that are skipped or carry another id leave the entry of [id]
    as it is. *)
Lemma load_meta_rows_keep (rows : list meta_row) (dm : gmap string meta) (dl : gmap string Z)
    (id : string) :
  Forall (fun r => row_skipped r = true \/ row_doc_id r <> id) rows ->
  (load_meta_rows int_error rows dm dl).1.1 !! id = dm !! id.
Proof.
  revert dm dl. induction rows as [| row rows IH]; intros dm dl Hall; simpl; [reflexivity |].
  apply Forall_cons in Hall as [Hrow Hall].
  destruct (row_skipped row) eqn:Hskip; [apply IH, Hall |].
  destruct (load_doc_len (r_doc_len row)) as [n |]; simpl; [| reflexivity].
  rewrite IH by exact Hall. apply lookup_insert_ne.
  destruct Hrow as [Hrow | Hrow]; [discriminate Hrow | exact Hrow].
Qed.

(** The loop ends without exception exactly when every row that is not
    skipped has a doc_len that [int] accepts. *)
Lemma load_meta_rows_success (rows : list meta_row) (dm : gmap string meta) (dl : gmap string Z) :
  (load_meta_rows int_error rows dm dl).2 = None <->
  Forall (fun r => row_skipped r = true \/ is_Some (load_doc_len (r_doc_len r))) rows.
Proof.
  revert dm dl. induction rows as [| row rows IH]; intros dm dl; simpl.
  - split; [constructor | reflexivity].
  - rewrite Forall_cons. destruct (row_skipped row) eqn:Hskip.
    + rewrite IH. split; [auto | intros [_ H]; exact H].
    + destruct (load_doc_len (r_doc_len row)) as [n |] eqn:Hlen; simpl.
      * rewrite IH. split; [intros H; split; [right; eauto | exact H] | intros [_ H]; exact H].
      * split; [discriminate |]. intros [[H | [n Hn]] _]; discriminate.
Qed.

Lemma load_tables (index_file : file (gmap string (list (string * Z))))
    (meta_file : file (list meta_row)) (corpus_file : file (list (option string))) :
  (DOC_META (load int_error index_file meta_file corpus_file),
   DOC_LENGTHS (load int_error index_file meta_file corpus_file)) =
  match meta_file with
  | Contents rows => (load_meta_rows int_error rows ∅ ∅).1
  | _ => (∅, ∅)
  end.
Proof.
  unfold load. destruct meta_file as [| msg | rows]; try reflexivity.
  destruct (load_meta_rows int_error rows ∅ ∅) as [[dm dl] [msg |]]; reflexivity.
Qed.

Lemma load_DOC_META (index_file : file (gmap string (list (string * Z))))
    (meta_file : file (list meta_row)) (corpus_file : file (list (option string))) :
  DOC_META (load int_error index_file meta_file corpus_file) =
  match meta_file with
  | Contents rows => (load_meta_rows int_error rows ∅ ∅).1.1
  | _ => ∅
  end.
Proof.
  pose proof (f_equal fst (load_tables index_file meta_file corpus_file)) as H.
  simpl in H. rewrite H. destruct meta_file; reflexivity.
Qed.

Lemma load_DOC_LENGTHS (index_file : file (gmap string (list (string * Z))))
    (meta_file : file (list meta_row)) (corpus_file : file (list (option string))) :
  DOC_LENGTHS (load int_error index_file meta_file corpus_file) =
  m_doc_len <$> DOC_META (load int_error index_file meta_file corpus_file).
Proof.
  pose proof (f_equal snd (load_tables index_file meta_file corpus_file)) as H.
  simpl in H. rewrite H, load_DOC_META. destruct meta_file as [| msg | rows].
  - rewrite fmap_empty. reflexivity.
  - rewrite fmap_empty. reflexivity.
  - apply load_meta_rows_mirror. rewrite fmap_empty. reflexivity.
Qed.

End MetaLoader.

(** Every returned hit is [to_hit] of an item of the accumulator. *)
Lemma hit_is_to_hit (st : state) (q : list string) (k : Z) (results : list hit) (h : hit) :
  bm25_search st q k = Ok results -> h ∈ results ->
  h = to_hit st (doc_id h, score h).
Proof.
  intros Hres Hh. apply bm25_search_inv in Hres as [[_ ->] | (_ & sc & _ & ->)]; [inversion Hh |].
  apply list_elem_of_fmap in Hh as ([d s] & -> & _). reflexivity.
Qed.

(** X3: whatever the files hold, the loader leaves the lengths table equal
    to the doc_len column of the metadata table; so the doc_len a search
    hit reports is the length the ranker used for that document, and it
    is null exactly for the documents the ranker scored with the average
    length. *)
Theorem lengths_mirror_metadata (int_error : string -> string)
    (index_file : file (gmap string (list (string * Z))))
    (meta_file : file (list meta_row)) (corpus_file : file (list (option string))) :
  DOC_LENGTHS (load int_error index_file meta_file corpus_file) =
    m_doc_len <$> DOC_META (load int_error index_file meta_file corpus_file) /\
  forall query_terms top_k results h avg,
    bm25_search (load int_error index_file meta_file corpus_file) query_terms top_k
      = Ok results ->
    h ∈ results ->
    doc_len h = DOC_LENGTHS (load int_error index_file meta_file corpus_file) !! doc_id h /\
    doc_length (load int_error index_file meta_file corpus_file) avg (doc_id h) =
      default avg (IZR <$> doc_len h).
Proof.
  pose proof (load_DOC_LENGTHS int_error index_file meta_file corpus_file) as Hmirror.
  split; [exact Hmirror |].
  intros query_terms top_k results h avg Hres Hh.
  pose proof (hit_is_to_hit _ _ _ _ _ Hres Hh) as Heq.
  assert (Hlen : doc_len h =
                 DOC_LENGTHS (load int_error index_file meta_file corpus_file) !! doc_id h).
  { rewrite Heq at 1. simpl. rewrite Hmirror, lookup_fmap. reflexivity. }
  split; [exact Hlen |]. unfold doc_length. rewrite Hlen. reflexivity.
Qed.

(** X4: every entry of the metadata table comes from a row of
    doc_meta.csv that has a doc_id other than the empty text and "None"
    and a doc_len that [int] accepts (an empty or missing doc_len counts
    as 1). Its url, title and image_url are what [row.get] returned for
    that row: the text of the field, [None] for a field the row is too
    short to have, and the default ("Untitled" for the title, the empty
    text for the other two) only where the header has no such column. So
    no document is ever stored under the id "" or "None". *)
Theorem metadata_entries_from_rows (int_error : string -> string)
    (index_file : file (gmap string (list (string * Z))))
    (meta_file : file (list meta_row)) (corpus_file : file (list (option string))) :
  (forall id m,
     DOC_META (load int_error index_file meta_file corpus_file) !! id = Some m ->
     exists rows row n,
       meta_file = Contents rows /\ row ∈ rows /\
       r_doc_id row = Some id /\ id <> "" /\ id <> "None" /\
       load_doc_len (r_doc_len row) = Some n /\
       m = Meta (default (Str "") (r_url row)) (default (Str "Untitled") (r_title row))
                (default (Str "") (r_image_url row)) n /\
       (r_title row = Some Null -> m_title m = Null) /\
       (r_title row = None -> m_title m = Str "Untitled")) /\
  DOC_META (load int_error index_file meta_file corpus_file) !! "" = None /\
  DOC_META (load int_error index_file meta_file corpus_file) !! "None" = None.
Proof.
  assert (Horigin : forall id m,
     DOC_META (load int_error index_file meta_file corpus_file) !! id = Some m ->
     exists rows row n,
       meta_file = Contents rows /\ row ∈ rows /\
       r_doc_id row = Some id /\ id <> "" /\ id <> "None" /\
       load_doc_len (r_doc_len row) = Some n /\
       m = Meta (default (Str "") (r_url row)) (default (Str "Untitled") (r_title row))
                (default (Str "") (r_image_url row)) n /\
       (r_title row = Some Null -> m_title m = Null) /\
       (r_title row = None -> m_title m = Str "Untitled")).
  { intros id m. rewrite load_DOC_META. destruct meta_file as [| msg | rows];
      try (rewrite lookup_empty; discriminate).
    intros Hm. apply load_meta_rows_origin in Hm as [Hm | (row & n & Hrow & Hskip & Hid & Hlen & ->)].
    { rewrite lookup_empty in Hm. discriminate Hm. }
    exists rows, row, n. unfold row_skipped in Hskip. apply orb_false_elim in Hskip as [He Hn].
    rewrite Hid in He, Hn. apply String.eqb_neq in He, Hn.
    unfold row_doc_id in Hid. destruct (r_doc_id row) as [d |]; simpl in Hid; [| congruence].
    subst d. repeat split; auto.
    - intros Ht. cbn [row_meta m_title]. rewrite Ht. reflexivity.
    - intros Ht. cbn [row_meta m_title]. rewrite Ht. reflexivity. }
  split; [exact Horigin |]. split.
  - destruct (DOC_META _ !! "") as [m |] eqn:Hm; [| reflexivity].
    destruct (Horigin _ _ Hm) as (_ & _ & _ & _ & _ & _ & He & _). contradiction.
  - destruct (DOC_META _ !! "None") as [m |] eqn:Hm; [| reflexivity].
    destruct (Horigin _ _ Hm) as (_ & _ & _ & _ & _ & _ & _ & Hn & _). contradiction.
Qed.

(** X5: of several rows of doc_meta.csv with the same doc_id the last one
    loaded wins: when the rows before a row load without exception and no
    later row that is not skipped carries its id, the metadata table
    holds that row's fields under its id, also when a later row stops the
    load. *)
Theorem last_row_wins (int_error : string -> string)
    (index_file : file (gmap string (list (string * Z))))
    (corpus_file : file (list (option string)))
    (before after : list meta_row) (row : meta_row) (n : Z) :
  (load_meta_rows int_error before ∅ ∅).2 = None ->
  row_skipped row = false ->
  load_doc_len (r_doc_len row) = Some n ->
  Forall (fun r => row_skipped r = true \/ row_doc_id r <> row_doc_id row) after ->
  DOC_META (load int_error index_file (Contents (before ++ row :: after)) corpus_file)
    !! row_doc_id row = Some (row_meta row n) /\
  DOC_LENGTHS (load int_error index_file (Contents (before ++ row :: after)) corpus_file)
    !! row_doc_id row = Some n.
Proof.
  intros Hbefore Hskip Hlen Hafter.
  assert (Hm : DOC_META (load int_error index_file (Contents (before ++ row :: after)) corpus_file)
                 !! row_doc_id row = Some (row_meta row n)).
  { rewrite load_DOC_META, load_meta_rows_app.
    destruct (load_meta_rows int_error before ∅ ∅) as [[dm dl] [msg |]]; [discriminate Hbefore |].
    simpl. rewrite Hskip, Hlen.
    rewrite load_meta_rows_keep by exact Hafter. apply lookup_insert_eq. }
  split; [exact Hm |].
  rewrite load_DOC_LENGTHS, lookup_fmap, Hm. reflexivity.
Qed.

Lemma last_row_wins_witness :
  DOC_META (load plain_int_error (Contents example_index) (Contents example_meta_rows) NotFound)
    !! "0" = Some (Meta "https://example.org/bbm" "Harga BBM naik" "" 1) /\
  DOC_LENGTHS (load plain_int_error (Contents example_index) (Contents example_meta_rows) NotFound)
    !! "0" = Some 1%Z.
Proof.
  apply (last_row_wins plain_int_error (Contents example_index) NotFound
           [MetaRow (Some "0") (Some (Str "https://example.org/bbm")) (Some (Str "Harga BBM")) (Some (Str "")) (Some "50");
            MetaRow (Some "") (Some (Str "https://example.org/x")) (Some (Str "Tanpa id")) (Some (Str "")) (Some "7")]
           []
           (MetaRow (Some "0") (Some (Str "https://example.org/bbm")) (Some (Str "Harga BBM naik")) (Some (Str "")) (Some ""))
           1).
  - reflexivity.
  - reflexivity.
  - reflexivity.
  - constructor.
Defined.

(** * The collection size *)

Lemma all_ids_elem_of (index : gmap string (list (string * Z))) (d : string) :
  d ∈ all_ids index <-> exists t ps, index !! t = Some ps /\ d ∈ ps.*1.
Proof.
  unfold all_ids.
  apply (map_fold_weak_ind
           (fun (acc : gset string) (m : gmap string (list (string * Z))) =>
              d ∈ acc <-> exists t ps, m !! t = Some ps /\ d ∈ ps.*1)).
  - split; [intros H; apply not_elem_of_empty in H; destruct H |].
    intros (t & ps & Ht & _). rewrite lookup_empty in Ht. discriminate Ht.
  - intros t ps m acc Hfresh IH. rewrite elem_of_union, elem_of_list_to_set, IH. split.
    + intros [Hd | (t' & ps' & Ht' & Hd)].
      * exists t, ps. rewrite lookup_insert_eq. auto.
      * exists t', ps'. rewrite lookup_insert_ne; [auto |]. intros ->. congruence.
    + intros (t' & ps' & Ht' & Hd). destruct (decide (t = t')) as [<- | Hne].
      * rewrite lookup_insert_eq in Ht'. injection Ht' as <-. left. exact Hd.
      * rewrite lookup_insert_ne in Ht' by exact Hne. right. eauto.
Qed.

Lemma postings_le_all_ids (index : gmap string (list (string * Z))) (t : string)
    (ps : list (string * Z)) :
  index !! t = Some ps -> dict_ok ps -> (length ps <= size (all_ids index))%nat.
Proof.
  intros Ht Hok. unfold dict_ok in Hok.
  rewrite <- (length_fmap fst ps), <- (size_list_to_set (C := gset string) _ Hok).
  apply subseteq_size. intros d Hd. apply elem_of_list_to_set in Hd.
  apply all_ids_elem_of. eauto.
Qed.

Lemma load_INVERTED_INDEX (int_error : string -> string)
    (index_file : file (gmap string (list (string * Z))))
    (meta_file : file (list meta_row)) (corpus_file : file (list (option string))) :
  INVERTED_INDEX (load int_error index_file meta_file corpus_file) =
  match index_file with Contents i => i | _ => ∅ end.
Proof.
  unfold load. destruct meta_file as [| msg | rows]; try reflexivity.
  destruct (load_meta_rows int_error rows ∅ ∅) as [[dm dl] [msg |]]; reflexivity.
Qed.

Lemma load_TOTAL_DOCS (int_error : string -> string)
    (index : gmap string (list (string * Z))) (rows : list meta_row)
    (corpus_file : file (list (option string))) :
  (load_meta_rows int_error rows ∅ ∅).2 = None ->
  TOTAL_DOCS (load int_error (Contents index) (Contents rows) corpus_file) =
  if decide (DOC_META (load int_error (Contents index) (Contents rows) corpus_file) = ∅)
  then size (all_ids index)
  else size (DOC_META (load int_error (Contents index) (Contents rows) corpus_file)).
Proof.
  intros Hok. unfold load.
  destruct (load_meta_rows int_error rows ∅ ∅) as [[dm dl] [msg |]]; [discriminate Hok |].
  simpl. destruct (decide (dm = ∅)) as [-> | Hne].
  - rewrite map_size_empty. simpl. case_bool_decide as Hidx; simpl; [| reflexivity].
    rewrite Hidx. reflexivity.
  - assert (size dm <> 0%nat) by (rewrite map_size_empty_iff; exact Hne).
    destruct (Nat.eqb_spec (size dm) 0); [contradiction | reflexivity].
Qed.

Lemma load_INIT_ERROR_rows (int_error : string -> string)
    (index : gmap string (list (string * Z))) (rows : list meta_row)
    (corpus_file : file (list (option string))) :
  INIT_ERROR (load int_error (Contents index) (Contents rows) corpus_file) = None <->
  (load_meta_rows int_error rows ∅ ∅).2 = None.
Proof.
  unfold load. destruct (load_meta_rows int_error rows ∅ ∅) as [[dm dl] [msg |]]; simpl;
    split; (discriminate || reflexivity).
Qed.

(** X6: when both inverted_index.json and doc_meta.csv load, TOTAL_DOCS is
    the number of metadata entries, or, when no row gave an entry, the
    number of distinct document ids in the postings of the index. In that
    second case, with postings that are dicts, no term occurs in more
    documents than the collection size the ranker uses. *)
Theorem total_docs_after_load (int_error : string -> string)
    (index : gmap string (list (string * Z))) (rows : list meta_row)
    (corpus_file : file (list (option string))) :
  INIT_ERROR (load int_error (Contents index) (Contents rows) corpus_file) = None ->
  (forall d, d ∈ all_ids index <-> exists t ps, index !! t = Some ps /\ d ∈ ps.*1) /\
  TOTAL_DOCS (load int_error (Contents index) (Contents rows) corpus_file) =
    (if decide (DOC_META (load int_error (Contents index) (Contents rows) corpus_file) = ∅)
     then size (all_ids index)
     else size (DOC_META (load int_error (Contents index) (Contents rows) corpus_file))) /\
  (DOC_META (load int_error (Contents index) (Contents rows) corpus_file) = ∅ ->
   map_Forall (fun _ ps => dict_ok ps) index ->
   df_le_N (load int_error (Contents index) (Contents rows) corpus_file)).
Proof.
  intros Hinit. apply load_INIT_ERROR_rows in Hinit.
  pose proof (load_TOTAL_DOCS int_error index rows corpus_file Hinit) as Htotal.
  split; [apply all_ids_elem_of |]. split; [exact Htotal |].
  intros Hempty Hdict. unfold df_le_N. rewrite load_INVERTED_INDEX.
  intros t ps Ht. cbv beta.
  pose proof (postings_le_all_ids index t ps Ht (Hdict t ps Ht)) as Hle.
  assert (Hsize : TOTAL_DOCS (load int_error (Contents index) (Contents rows) corpus_file) =
                  size (all_ids index)).
  { rewrite Htotal. destruct (decide _) as [_ | Hne]; [reflexivity | contradiction]. }
  unfold N_docs. rewrite Hsize.
  destruct (Nat.eqb_spec (size (all_ids index)) 0); lia.
Qed.

Lemma total_docs_after_load_witness :
  TOTAL_DOCS (load plain_int_error (Contents example_index)
                (Contents [MetaRow None (Some (Str "")) (Some (Str "Tanpa id")) (Some (Str "")) (Some "7")])
                NotFound) = 2%nat /\
  df_le_N (load plain_int_error (Contents example_index)
             (Contents [MetaRow None (Some (Str "")) (Some (Str "Tanpa id")) (Some (Str "")) (Some "7")])
             NotFound).
Proof.
  destruct (total_docs_after_load plain_int_error example_index
              [MetaRow None (Some (Str "")) (Some (Str "Tanpa id")) (Some (Str "")) (Some "7")] NotFound eq_refl)
    as (_ & Htotal & Hdf).
  split.
  - rewrite Htotal. vm_compute. reflexivity.
  - apply Hdf; [reflexivity |].
    apply (bool_decide_unpack (map_Forall _ _)). vm_compute. exact I.
Defined.

(** * A missing doc_meta.csv *)

Lemma ln_neg (x : R) : 0 < x -> x < 1 -> ln x < 0.
Proof. intros H0 H1. rewrite <- ln_1. apply ln_increasing; lra. Qed.

Lemma Rsum_neg (xs : list R) : xs <> [] -> Forall (fun x => x < 0) xs -> Rsum xs < 0.
Proof.
  intros Hne Hall. destruct xs as [| x xs]; [contradiction |].
  apply Forall_cons in Hall as [Hx Hall]. simpl.
  assert (Rsum xs <= 0); [| lra].
  clear Hne Hx. induction Hall as [| y ys Hy _ IH]; simpl; lra.
Qed.

(** With a collection size of 1, a term in two or more documents has a
    negative idf. *)
Lemma idf_formula_one_neg (df : Z) : (2 <= df)%Z -> idf_formula 1 df < 0.
Proof.
  intros Hdf. unfold idf_formula. apply IZR_le in Hdf.
  replace ((1 - IZR df + 0.5) / (IZR df + 0.5) + 1) with (2 / (IZR df + 0.5))
    by (replace 0.5 with (/ 2) by lra; field; lra).
  apply ln_neg.
  - apply Rdiv_lt_0_compat; lra.
  - apply (Rmult_lt_reg_r (IZR df + 0.5)); [lra |].
    unfold Rdiv. rewrite Rmult_assoc, Rinv_l by lra. lra.
Qed.

(** X7: when doc_meta.csv is missing, the loader leaves TOTAL_DOCS at 0
    without counting the documents of the index, so the ranker works with
    a collection size of 1 and an average length of 300; a query for one
    term that occurs in two or more documents, with frequencies of at
    least 1 that convert to floats, then completes and gives every
    document of the term a negative score. *)
Theorem missing_metadata_negative_scores (int_error : string -> string)
    (index : gmap string (list (string * Z))) (corpus_file : file (list (option string)))
    (t : string) (ps : list (string * Z)) :
  index !! t = Some ps ->
  (2 <= length ps)%nat ->
  Forall (fun p : string * Z => (1 <= p.2)%Z) ps ->
  Forall (fun p : string * Z => fits p.2) ps ->
  TOTAL_DOCS (load int_error (Contents index) NotFound corpus_file) = 0%nat /\
  N_docs (load int_error (Contents index) NotFound corpus_file) = 1%Z /\
  mean_length (load int_error (Contents index) NotFound corpus_file) = 300 /\
  exists scores,
    bm25_scores (load int_error (Contents index) NotFound corpus_file) [t] = Ok scores /\
    forall d, d ∈ ps.*1 -> scores_get scores d < 0.
Proof.
  intros Ht Hdf Hfreq Hfit.
  set (st := load int_error (Contents index) NotFound corpus_file).
  assert (Hmean : mean_length st = 300).
  { unfold mean_length. destruct (decide (DOC_LENGTHS st = ∅)) as [_ | Hne]; [reflexivity |].
    exfalso. apply Hne. reflexivity. }
  assert (Hps : postings_of st t = ps).
  { unfold postings_of. change (INVERTED_INDEX st) with index. rewrite Ht. reflexivity. }
  assert (Hlen : forall d, doc_length st 300 d = 300).
  { intros d. unfold doc_length. change (DOC_LENGTHS st) with (∅ : gmap string Z).
    rewrite lookup_empty. reflexivity. }
  assert (Hden : forall p, p ∈ ps ->
            0 < IZR p.2 + k1 * (1 - b + b * (doc_length st 300 p.1 / 300))).
  { intros p Hp. rewrite Forall_forall in Hfreq. specialize (Hfreq p Hp).
    apply IZR_le in Hfreq. rewrite Hlen. unfold k1, b. lra. }
  assert (Hdef : query_defined st (mean_length st) [t]).
  { rewrite Hmean. unfold query_defined. rewrite bind_cons.
    change ([] ≫= postings_of st) with (@nil (string * Z)). rewrite app_nil_r, Hps.
    apply Forall_forall. intros p Hp. split; [lra |].
    split; [apply Rgt_not_eq, Hden, Hp |]. split.
    - rewrite Forall_forall in Hfit. exact (Hfit p Hp).
    - intros n Hn. change (DOC_LENGTHS st) with (∅ : gmap string Z) in Hn.
      rewrite lookup_empty in Hn. discriminate Hn. }
  assert (Hmfit : mean_fits st) by (left; reflexivity).
  split; [reflexivity |]. split; [reflexivity |]. split; [exact Hmean |].
  eexists. split; [apply bm25_scores_Ok; [exact Hmfit | exact Hdef] |].
  intros d Hd. rewrite accumulate_get. simpl scores_get. rewrite Rplus_0_l, Hmean.
  unfold contributions. rewrite bind_cons.
  change ([] ≫= _) with (@nil (string * R)). rewrite app_nil_r, Hps.
  change (N_docs st) with 1%Z.
  assert (Hidf : idf_formula 1 (Z.of_nat (length ps)) < 0) by (apply idf_formula_one_neg; lia).
  apply list_elem_of_fmap in Hd as (p & -> & Hp).
  apply Rsum_neg.
  - intros Hnil. apply fmap_nil_inv in Hnil.
    eapply (filter_nil_not_elem_of _ _ (p.1, _) Hnil); [reflexivity |].
    apply list_elem_of_fmap. exists p. split; [reflexivity | exact Hp].
  - apply Forall_fmap, Forall_forall. intros x Hx.
    apply list_elem_of_filter in Hx as [_ Hx].
    apply list_elem_of_fmap in Hx as (p' & -> & Hp'). cbn [snd]. unfold posting_score.
    pose proof (Hden p' Hp') as Hpos.
    rewrite Forall_forall in Hfreq. specialize (Hfreq p' Hp'). apply IZR_le in Hfreq.
    assert (0 < IZR p'.2 * (k1 + 1) /
                (IZR p'.2 + k1 * (1 - b + b * (doc_length st 300 p'.1 / 300)))).
    { apply Rdiv_lt_0_compat; [unfold k1; nra | exact Hpos]. }
    apply Rmult_neg_pos; assumption.
Qed.

Lemma missing_metadata_negative_scores_witness :
  exists scores,
    bm25_scores (load plain_int_error (Contents example_index) NotFound NotFound) ["kompas"]
      = Ok scores /\
    scores_get scores "0" < 0 /\ scores_get scores "1" < 0.
Proof.
  destruct (missing_metadata_negative_scores plain_int_error example_index NotFound
              "kompas" [("0", 3%Z); ("1", 1%Z)])
    as (_ & _ & _ & scores & Hsc & Hneg).
  - reflexivity.
  - simpl. lia.
  - repeat constructor; simpl; lia.
  - repeat constructor; vm_compute; reflexivity.
  - exists scores. split; [exact Hsc |]. split; apply Hneg.
    + apply list_elem_of_here.
    + apply list_elem_of_further, list_elem_of_here.
Defined.

(** * The load error *)

(** X8: after loading, INIT_ERROR is unset exactly when
    inverted_index.json was read and doc_meta.csv was either missing or
    read with every row that is not skipped carrying a doc_len that [int]
    accepts. The corpus file has no part in it, and a doc_meta.csv that
    cannot be read puts its own message in place of the index's. *)
Theorem init_error_after_load (int_error : string -> string)
    (index_file : file (gmap string (list (string * Z))))
    (meta_file : file (list meta_row)) (corpus_file : file (list (option string))) :
  (INIT_ERROR (load int_error index_file meta_file corpus_file) = None <->
   (exists index, index_file = Contents index) /\
   (meta_file = NotFound \/
    exists rows,
      meta_file = Contents rows /\
      Forall (fun r => row_skipped r = true \/ is_Some (load_doc_len (r_doc_len r))) rows)) /\
  (forall corpus_file',
     INIT_ERROR (load int_error index_file meta_file corpus_file') =
     INIT_ERROR (load int_error index_file meta_file corpus_file)) /\
  (forall msg,
     meta_file = Unreadable msg ->
     INIT_ERROR (load int_error index_file meta_file corpus_file) =
     Some (String.append "Failed to load doc_meta.csv: " msg)).
Proof.
  split; [| split].
  - unfold load. destruct meta_file as [| msg | rows].
    + destruct index_file as [| msg | index]; simpl; split.
      * discriminate.
      * intros [[index' H] _]. discriminate H.
      * discriminate.
      * intros [[index' H] _]. discriminate H.
      * intros _. split; [eauto | left; reflexivity].
      * reflexivity.
    + simpl. split; [discriminate |].
      intros [_ [H | (rows & H & _)]]; discriminate H.
    + pose proof (load_meta_rows_success int_error rows ∅ ∅) as Hsucc.
      destruct (load_meta_rows int_error rows ∅ ∅) as [[dm dl] [msg |]]; simpl in *.
      * split; [discriminate |].
        intros [_ [H | (rows' & H & Hall)]]; [discriminate H |].
        injection H as <-. apply Hsucc in Hall. discriminate Hall.
      * destruct index_file as [| msg | index]; simpl; split.
        -- discriminate.
        -- intros [[index' H] _]. discriminate H.
        -- discriminate.
        -- intros [[index' H] _]. discriminate H.
        -- intros _. split; [eauto |]. right. exists rows. split; [reflexivity |].
           apply Hsucc. reflexivity.
        -- reflexivity.
  - intros corpus_file'. unfold load. destruct meta_file as [| msg | rows]; try reflexivity.
    destruct (load_meta_rows int_error rows ∅ ∅) as [[dm dl] [msg |]]; reflexivity.
  - intros msg ->. reflexivity.
Qed.

(** X9: a row of doc_meta.csv whose doc_len is not an integer literal
    stops the load there: the rows before it stay in the metadata table,
    the rows after it are not read, TOTAL_DOCS stays 0, and from then on
    every request, detail or search, is answered with the 500 INIT_ERROR
    response that carries the conversion's message. *)
Theorem bad_doc_len_refuses_all (int_error : string -> string)
    (index_file : file (gmap string (list (string * Z))))
    (corpus_file : file (list (option string)))
    (before after : list meta_row) (row : meta_row) :
  (load_meta_rows int_error before ∅ ∅).2 = None ->
  row_skipped row = false ->
  load_doc_len (r_doc_len row) = None ->
  DOC_META (load int_error index_file (Contents (before ++ row :: after)) corpus_file) =
    (load_meta_rows int_error before ∅ ∅).1.1 /\
  TOTAL_DOCS (load int_error index_file (Contents (before ++ row :: after)) corpus_file) = 0%nat /\
  forall req,
    do_GET (load int_error index_file (Contents (before ++ row :: after)) corpus_file) req =
    init_error_response
      (String.append "Failed to load doc_meta.csv: " (int_error (default "" (r_doc_len row)))).
Proof.
  intros Hbefore Hskip Hlen.
  assert (Hrows : load_meta_rows int_error (before ++ row :: after) ∅ ∅ =
                  ((load_meta_rows int_error before ∅ ∅).1,
                   Some (int_error (default "" (r_doc_len row))))).
  { rewrite load_meta_rows_app.
    destruct (load_meta_rows int_error before ∅ ∅) as [[dm dl] [msg |]]; [discriminate Hbefore |].
    simpl. rewrite Hskip, Hlen. reflexivity. }
  split; [rewrite load_DOC_META, Hrows; reflexivity |].
  unfold load. rewrite Hrows.
  destruct (load_meta_rows int_error before ∅ ∅) as [[dm dl] o]. simpl.
  split; [reflexivity |]. intros req. reflexivity.
Qed.

Lemma bad_doc_len_refuses_all_witness :
  DOC_META (load plain_int_error (Contents example_index) (Contents bad_meta_rows) NotFound) =
    {["0" := Meta "" "Satu" "" 12]} /\
  do_GET (load plain_int_error (Contents example_index) (Contents bad_meta_rows) NotFound)
         (Request (Some "0") None None) =
    init_error_response
      "Failed to load doc_meta.csv: invalid literal for int() with base 10: 'dua belas'".
Proof.
  destruct (bad_doc_len_refuses_all plain_int_error (Contents example_index) NotFound
              [MetaRow (Some "0") (Some (Str "")) (Some (Str "Satu")) (Some (Str "")) (Some "12")]
              [MetaRow (Some "2") (Some (Str "")) (Some (Str "Tiga")) (Some (Str "")) (Some "9")]
              (MetaRow (Some "1") (Some (Str "")) (Some (Str "Dua")) (Some (Str "")) (Some "dua belas"))
              eq_refl eq_refl eq_refl) as (Hmeta & _ & Hget).
  split.
  - exact Hmeta.
  - exact (Hget (Request (Some "0") None None)).
Defined.

(** * Exceptions of the ranker *)

(** X10: what [bm25_search] can raise. Its only exceptions are the
    ZeroDivisionError of a float division and the two OverflowErrors of
    an int, or a quotient of ints, too large for a float; [math.log]
    never fails there. The OverflowError of the average length is raised
    exactly when the index is not empty and the mean of the stored
    lengths is outside the range of floats, and then for every query,
    also one without terms, and every top_k. *)
Theorem bm25_search_exceptions (st : state) (query_terms : list string) (top_k : Z) :
  (forall e,
     bm25_search st query_terms top_k = Raise e ->
     e = ZeroDivisionError \/
     e = OverflowError "int too large to convert to float" \/
     e = OverflowError "integer division result too large for a float") /\
  (bm25_search st query_terms top_k =
     Raise (OverflowError "integer division result too large for a float") <->
   INVERTED_INDEX st <> ∅ /\ ~ mean_fits st) /\
  (INVERTED_INDEX st <> ∅ -> ~ mean_fits st ->
   forall q k,
     bm25_search st q k =
     Raise (OverflowError "integer division result too large for a float")).
Proof.
  split; [| split].
  - intros e Hraise. apply bm25_search_Raise in Hraise as [_ Hraise].
    eapply bm25_scores_Raise, Hraise.
  - rewrite bm25_search_Raise. split.
    + intros [Hne Hraise]. split; [exact Hne |]. intros Hfit.
      unfold bm25_scores in Hraise. rewrite avg_dl_Ok in Hraise by exact Hfit.
      cbn [mbind result_bind] in Hraise.
      apply for_each_terms_Raise in Hraise as [H | H]; discriminate H.
    + intros [Hne Hbig]. split; [exact Hne | apply bm25_scores_overflow, Hbig].
  - intros Hne Hbig q k. apply bm25_search_Raise.
    split; [exact Hne | apply bm25_scores_overflow, Hbig].
Qed.



(** * Ties in the ranking *)









(** * Growing top_k *)

(** X15: a larger top_k only appends. For [0 <= k <= k'] the result list
    for [k] is the first [k] entries of the result list for [k'] (which
    exists whenever the one for [k] does), and a top_k of at least the
    number of scoring documents returns all of them. *)
Theorem larger_top_k_appends (st : state) (query_terms : list string) (k k' : Z)
    (results : list hit) :
  (0 <= k <= k')%Z ->
  bm25_search st query_terms k = Ok results ->
  exists results',
    bm25_search st query_terms k' = Ok results' /\
    results = take (Z.to_nat k) results' /\
    results `prefix_of` results' /\
    ((Z.of_nat (length (scoring_docs st query_terms)) <= k')%Z ->
     length results' = length (scoring_docs st query_terms)).
Proof.
  intros Hk Hres.
  apply bm25_search_inv in Hres as [[He ->] | (Hne & sc & Hsc & ->)].
  - exists []. rewrite bm25_search_empty_index by exact He.
    split; [reflexivity |]. split; [rewrite take_nil; reflexivity |].
    split; [reflexivity |]. intros _. rewrite scoring_docs_empty_index by exact He. reflexivity.
  - exists (to_hit st <$> slice_to k' (sorted_desc sc)).
    rewrite (bm25_search_of_scores st _ k' _ Hsc).
    destruct (decide _) as [He | _]; [contradiction |].
    split; [reflexivity |]. rewrite !slice_to_nonneg by lia.
    assert (Htake : to_hit st <$> take (Z.to_nat k) (sorted_desc sc) =
                    take (Z.to_nat k) (to_hit st <$> take (Z.to_nat k') (sorted_desc sc))).
    { rewrite <- fmap_take, take_take. f_equal. f_equal. lia. }
    split; [exact Htake |]. split.
    + rewrite Htake. apply prefix_take.
    + intros Hall. rewrite length_fmap, length_take, sorted_desc_length.
      rewrite (bm25_scores_length st _ _ Hsc). lia.
Qed.

Lemma larger_top_k_appends_witness :
  exists results',
    bm25_search example_state ["kompas"] 5 = Ok results' /\
    [example_hit_0] = take 1 results' /\ length results' = 2%nat.
Proof.
  assert (Hk : (0 <= 1 <= 5)%Z) by lia.
  destruct (larger_top_k_appends example_state ["kompas"] 1 5 [example_hit_0] Hk
              (example_kompas_search 1)) as (r' & Hres & Htake & _ & Hall).
  exists r'. split; [exact Hres |]. split; [exact Htake |].
  rewrite Hall; vm_compute; [reflexivity | discriminate].
Defined.

(** * The weight of a term *)

Lemma Rdiv_lt_cross (a a' c c' : R) :
  0 < c -> 0 < c' -> a' * c < a * c' -> a' / c' < a / c.
Proof.
  intros Hc Hc' H.
  replace (a' / c') with (a' * c / (c' * c)) by (field; lra).
  replace (a / c) with (a * c' / (c' * c)) by (field; lra).
  unfold Rdiv. apply Rmult_lt_compat_r; [| exact H].
  apply Rinv_0_lt_compat. nra.
Qed.

Lemma idf_formula_closed (N df : Z) :
  (0 <= df)%Z -> idf_formula N df = ln ((IZR N + 1) / (IZR df + 0.5)).
Proof.
  intros Hdf. unfold idf_formula. rewrite <- minus_IZR, idf_argument by exact Hdf.
  reflexivity.
Qed.

Lemma idf_formula_order (N df df' : Z) :
  (0 <= N)%Z -> (0 <= df < df')%Z -> idf_formula N df' < idf_formula N df.
Proof.
  intros HN [Hdf Hlt]. rewrite !idf_formula_closed by lia.
  apply IZR_le in HN, Hdf. apply IZR_lt in Hlt.
  apply ln_increasing.
  - apply Rdiv_lt_0_compat; lra.
  - apply Rdiv_lt_cross; [lra | lra | nra].
Qed.

Lemma idf_formula_neg (N df : Z) :
  (0 <= N < df)%Z -> idf_formula N df < 0.
Proof.
  intros [HN Hlt]. rewrite idf_formula_closed by lia.
  assert (Hdf : (N + 1 <= df)%Z) by lia.
  apply IZR_le in HN, Hdf. rewrite plus_IZR in Hdf.
  apply ln_neg.
  - apply Rdiv_lt_0_compat; lra.
  - assert (H : (IZR N + 1) / (IZR df + 0.5) < 1 / 1)
      by (apply Rdiv_lt_cross; lra).
    lra.
Qed.

(** X18: rarer terms weigh more. For a collection size [N >= 1] and
    document frequencies [1 <= df <= df'], [idf] raises nothing, the term
    with the larger document frequency gets the smaller weight (strictly
    when the frequencies differ), and a weight is never zero: it is
    positive exactly for [df <= N] and negative exactly for [df > N]. *)
Theorem rarer_terms_weigh_more (N df df' : Z) :
  (1 <= N)%Z -> (1 <= df <= df')%Z ->
  exists v v',
    idf N df = Ok v /\ idf N df' = Ok v' /\
    v' <= v /\ ((df < df')%Z -> v' < v) /\
    (0 < v <-> (df <= N)%Z) /\ (v < 0 <-> (N < df)%Z).
Proof.
  intros HN [Hdf Hle].
  exists (idf_formula N df), (idf_formula N df').
  split; [apply idf_Ok; lia |]. split; [apply idf_Ok; lia |].
  assert (Hstrict : (df < df')%Z -> idf_formula N df' < idf_formula N df)
    by (intros Hlt; apply idf_formula_order; lia).
  split; [| split; [exact Hstrict |]].
  - destruct (Z.eq_dec df df') as [<- | Hne]; [lra |].
    left. apply Hstrict. lia.
  - split; split.
    + intros Hpos. destruct (Z_le_gt_dec df N) as [H | H]; [exact H | exfalso].
      assert (idf_formula N df < 0) by (apply idf_formula_neg; lia). lra.
    + intros H. apply idf_formula_pos. lia.
    + intros Hneg. destruct (Z_lt_le_dec N df) as [H | H]; [exact H | exfalso].
      assert (0 < idf_formula N df) by (apply idf_formula_pos; lia). lra.
    + intros H. apply idf_formula_neg. lia.
Qed.

Lemma rarer_terms_weigh_more_witness :
  exists v v', idf 10 2 = Ok v /\ idf 10 5 = Ok v' /\ v' < v /\ 0 < v.
Proof.
  destruct (rarer_terms_weigh_more 10 2 5) as (v & v' & Hv & Hv' & _ & Hlt & Hpos & _);
    [lia | lia |].
  exists v, v'. split; [exact Hv |]. split; [exact Hv' |].
  split; [apply Hlt; lia | apply Hpos; lia].
Defined.

(** * From a hit to its detail view *)

(** X19: a hit and the detail view of its document agree. When the
    doc_id of a hit is one that the detail branch leaves as it is, a
    detail request for it shows the hit's title, url, image_url and
    doc_len beside the content; it is answered 404 exactly when the hit
    has no doc_len (its document has no metadata) and the document has
    no text either. *)
Theorem hit_detail_agree (st : state) (query_terms : list string) (top_k : Z)
    (results : list hit) (h : hit) (q k : option string) :
  INIT_ERROR st = None ->
  bm25_search st query_terms top_k = Ok results -> h ∈ results ->
  normalize_doc_id (doc_id h) = doc_id h ->
  do_GET st (Request (Some (doc_id h)) q k) =
    if bool_decide (doc_len h = None) &&
       String.eqb (default "" (DOC_CONTENT st !! doc_id h)) ""
    then not_found_response (doc_id h)
    else send 200 (detail_record (doc_id h) (title h) (url h) (image_url h) (doc_len h)
                     (default "" (DOC_CONTENT st !! doc_id h))).
Proof.
  intros Hinit Hres Hh Hid.
  rewrite (do_GET_detail st _ q k Hinit), Hid.
  pose proof (hit_is_to_hit st _ _ _ h Hres Hh) as Hform.
  destruct h as [id ti u im dl sc]. unfold to_hit in Hform.
  cbn [doc_id title url image_url doc_len score fst snd] in *.
  injection Hform as -> -> -> ->.
  unfold detail.
  destruct (DOC_META st !! id) as [m |] eqn:Hm; reflexivity.
Qed.

Lemma hit_detail_agree_witness :
  do_GET example_state (Request (Some "0") None None) =
  send 200 (detail_record "0" "Harga BBM naik" "https://example.org/bbm" "" (Some 50%Z)
              "isi berita").
Proof.
  assert (Hin : example_hit_0 ∈ [example_hit_0]) by apply list_elem_of_here.
  assert (Hid : normalize_doc_id (doc_id example_hit_0) = doc_id example_hit_0)
    by (vm_compute; reflexivity).
  rewrite (hit_detail_agree example_state ["kompas"] 1 [example_hit_0] example_hit_0
             None None eq_refl (example_kompas_search 1) Hin Hid
           : do_GET example_state (Request (Some "0") None None) = _).
  reflexivity.
Defined.

(** * The terms of a query *)

Lemma isspace_lower_char (c : ascii) : Py.isspace (Py.lower_char c) = Py.isspace c.
Proof. destruct c as [[] [] [] [] [] [] [] []]; reflexivity. Qed.

Lemma lower_char_idemp (c : ascii) : Py.lower_char (Py.lower_char c) = Py.lower_char c.
Proof. destruct c as [[] [] [] [] [] [] [] []]; reflexivity. Qed.

Lemma lower_idemp (s : string) : Py.lower (Py.lower s) = Py.lower s.
Proof.
  induction s as [| c s IH]; [reflexivity |].
  cbn [Py.lower]. rewrite lower_char_idemp, IH. reflexivity.
Qed.

Lemma lower_of_list (l : list ascii) :
  Py.lower (string_of_list_ascii l) = string_of_list_ascii (Py.lower_char <$> l).
Proof.
  induction l as [| c l IH]; [reflexivity |].
  rewrite fmap_cons. cbn [string_of_list_ascii Py.lower]. rewrite IH. reflexivity.
Qed.

Lemma rev_fmap {A B : Type} (f : A -> B) (l : list A) : rev (f <$> l) = f <$> rev l.
Proof.
  induction l as [| x l IH]; [reflexivity |].
  rewrite fmap_cons. cbn [rev]. rewrite IH, fmap_app. reflexivity.
Qed.

Lemma split_aux_lower (s : string) (cur : list ascii) :
  Py.split_aux (Py.lower s) (Py.lower_char <$> cur) = Py.lower <$> Py.split_aux s cur.
Proof.
  revert cur. induction s as [| c s IH]; intros cur.
  - destruct cur as [| x cur]; [reflexivity |].
    cbn [Py.lower Py.split_aux]. rewrite (fmap_cons Py.lower_char x cur). cbv iota.
    rewrite <- (fmap_cons Py.lower_char x cur), rev_fmap, <- lower_of_list. reflexivity.
  - cbn [Py.lower Py.split_aux]. rewrite isspace_lower_char.
    destruct (Py.isspace c).
    + destruct cur as [| x cur].
      * exact (IH []).
      * rewrite (fmap_cons Py.lower_char x cur). cbv iota.
        rewrite (fmap_cons Py.lower (string_of_list_ascii (rev (x :: cur)))).
        rewrite lower_of_list, <- rev_fmap, (fmap_cons Py.lower_char x cur).
        f_equal. exact (IH []).
    + rewrite <- fmap_cons. apply IH.
Qed.

Lemma split_lower (s : string) : Py.split (Py.lower s) = Py.lower <$> Py.split s.
Proof. exact (split_aux_lower s []). Qed.

Lemma split_lstrip (s : string) :
  Py.split_aux (Py.lstrip_by Py.isspace s) [] = Py.split_aux s [].
Proof.
  induction s as [| c s IH]; [reflexivity |].
  cbn [Py.lstrip_by]. destruct (Py.isspace c) eqn:Hc.
  - rewrite IH. cbn [Py.split_aux]. rewrite Hc. reflexivity.
  - reflexivity.
Qed.

Lemma split_rstrip (s : string) (cur : list ascii) :
  Py.split_aux (Py.rstrip_by Py.isspace s) cur = Py.split_aux s cur.
Proof.
  revert cur. induction s as [| c s IH]; intros cur; [reflexivity |].
  cbn [Py.rstrip_by]. destruct (Py.rstrip_by Py.isspace s) as [| c2 r] eqn:Hr.
  - destruct (Py.isspace c) eqn:Hc.
    + cbn [Py.split_aux]. rewrite Hc, <- (IH []). reflexivity.
    + cbn [Py.split_aux]. rewrite Hc. exact (IH (c :: cur)).
  - cbn [Py.split_aux] in *. destruct (Py.isspace c).
    + rewrite <- (IH []). reflexivity.
    + rewrite <- (IH (c :: cur)). reflexivity.
Qed.

Lemma split_strip (s : string) : Py.split (Py.strip s) = Py.split s.
Proof.
  unfold Py.split, Py.strip, Py.strip_by. rewrite split_rstrip. apply split_lstrip.
Qed.

Lemma split_aux_nil (s : string) (cur : list ascii) :
  Py.split_aux s cur = [] -> cur = [] /\ Py.lstrip_by Py.isspace s = "".
Proof.
  revert cur. induction s as [| c s IH]; intros cur H.
  - destruct cur; [split; reflexivity | discriminate].
  - cbn [Py.split_aux Py.lstrip_by] in *. destruct (Py.isspace c).
    + destruct cur; [| discriminate]. split; [reflexivity |]. exact (proj2 (IH [] H)).
    + destruct (IH (c :: cur) H) as [Hcur _]. discriminate.
Qed.

Lemma strip_empty_iff (s : string) : Py.strip s = "" <-> Py.split s = [].
Proof.
  split.
  - intros H. rewrite <- split_strip, H. reflexivity.
  - intros H. apply split_aux_nil in H as [_ H].
    unfold Py.strip, Py.strip_by. rewrite H. reflexivity.
Qed.

Lemma word_of_list (l : list ascii) :
  l <> [] -> Forall (fun c => Py.isspace c = false) l ->
  string_of_list_ascii l <> "" /\
  string_forallb (fun c => negb (Py.isspace c)) (string_of_list_ascii l) = true.
Proof.
  intros Hne Hall. split.
  - destruct l; [contradiction | discriminate].
  - clear Hne. induction Hall as [| c l Hc _ IH]; [reflexivity |].
    cbn [string_of_list_ascii string_forallb]. rewrite Hc, IH. reflexivity.
Qed.

Lemma rev_word (cur : list ascii) :
  cur <> [] -> Forall (fun c => Py.isspace c = false) cur ->
  string_of_list_ascii (rev cur) <> "" /\
  string_forallb (fun c => negb (Py.isspace c)) (string_of_list_ascii (rev cur)) = true.
Proof.
  intros Hne Hall. apply word_of_list.
  - intros Hnil. apply (f_equal (@length ascii)) in Hnil.
    rewrite length_rev in Hnil. destruct cur; [contradiction | discriminate].
  - apply List.Forall_rev, Hall.
Qed.

Lemma split_aux_words (s : string) (cur : list ascii) :
  Forall (fun c => Py.isspace c = false) cur ->
  Forall (fun t => t <> "" /\ string_forallb (fun c => negb (Py.isspace c)) t = true)
         (Py.split_aux s cur).
Proof.
  revert cur. induction s as [| c s IH]; intros cur Hcur.
  - cbn [Py.split_aux]. destruct cur as [| x cur]; [constructor |].
    constructor; [| constructor]. apply rev_word; [discriminate | exact Hcur].
  - cbn [Py.split_aux]. destruct (Py.isspace c) eqn:Hc.
    + destruct cur as [| x cur]; [apply IH; constructor |].
      constructor; [| apply IH; constructor].
      apply rev_word; [discriminate | exact Hcur].
    + apply IH. constructor; [exact Hc | exact Hcur].
Qed.

(** X20: the terms the handler gives the ranker. For a q parameter [s]
    they are the whitespace-separated words of [s] in lower case: the
    strip of line 226 changes nothing in them; each is a non-empty text
    without whitespace that lower-casing leaves as it is; and there is no
    term exactly when the stripped parameter is empty, which is when the
    handler answers 400 instead of calling the ranker. *)
Theorem query_terms_are_lowered_words (s : string) :
  Py.split (Py.lower (Py.strip s)) = Py.lower <$> Py.split s /\
  Forall (fun t => t <> "" /\
                   string_forallb (fun c => negb (Py.isspace c)) t = true /\
                   Py.lower t = t)
         (Py.split (Py.lower (Py.strip s))) /\
  (Py.split (Py.lower (Py.strip s)) = [] <-> Py.strip s = "") /\
  (forall st top_k_str,
     search st (Py.strip s) top_k_str = missing_query_response <->
     Py.split (Py.lower (Py.strip s)) = []).
Proof.
  assert (Hterms : Py.split (Py.lower (Py.strip s)) = Py.lower <$> Py.split s)
    by (rewrite split_lower, split_strip; reflexivity).
  assert (Hnil : Py.split (Py.lower (Py.strip s)) = [] <-> Py.strip s = "").
  { rewrite Hterms, strip_empty_iff. split.
    - apply fmap_nil_inv.
    - intros ->. reflexivity. }
  split; [exact Hterms |]. split; [| split; [exact Hnil |]].
  - apply Forall_forall. intros t Ht.
    pose proof (split_aux_words (Py.lower (Py.strip s)) [] (List.Forall_nil _)) as Hw.
    rewrite Forall_forall in Hw. destruct (Hw t Ht) as [Hne Hsp].
    split; [exact Hne |]. split; [exact Hsp |].
    rewrite Hterms in Ht. apply list_elem_of_fmap in Ht as (w & -> & _).
    apply lower_idemp.
  - intros st top_k_str. rewrite Hnil. unfold search.
    destruct (String.eqb_spec (Py.strip s) "") as [He | Hne].
    + split; [intros _; exact He | reflexivity].
    + split; [| contradiction].
      destruct (bm25_search st _ _); discriminate.
Qed.




(** * The status of a response *)

